(** * ElevationMorph: the elevation-morphing terrain effect of osgEarthUtil

    A shallow embedding of [src/osgEarthUtil/ElevationMorph.cpp]:

    - the C++ class [ElevationMorph] (constructor, [setDelay], [setDuration],
      [onInstall], [onUninstall]) over a store of shared [osg::Uniform]
      objects and a terrain engine node that owns a state set;
    - the GLSL vertex-shader function [oe_morph_vertex] held in the string
      [vs], over real arithmetic with division as a partial operation.

    C++ [float] values are IEEE-754 binary32 numbers ([spec_float]); the C++
    side only stores and compares them.  The shader's [float] arithmetic is
    idealised by the reals.  Where GLSL leaves a result unspecified (a
    division by zero, a clamp with [minVal > maxVal]) the model has no
    value; what a GPU computes there is outside this development, whose
    theorems on the shader speak of the values that are defined. *)

From Stdlib Require Import ZArith Reals Lra Lia.
From Stdlib Require Import Floats.SpecFloat.
From stdpp Require Import gmap strings.

Local Open Scope string_scope.

(** ** C++ [float] *)

(** A C++ [float]: a binary32 number, with its zeros, infinities and NaN. *)
Definition float : Type := spec_float.

Definition float_prec : Z := 24.
Definition float_emax : Z := 128.

(** The numbers that are binary32 values. *)
Definition is_float (f : float) : bool := valid_binary float_prec float_emax f.

(** The literals [0.0f] and [0.25f] of the source. *)
Definition f_0_0 : float := S754_zero false.
Definition f_0_25 : float :=
  Eval cbv in binary_normalize float_prec float_emax 1 (-2) false.

Definition is_nan (f : float) : bool :=
  match f with S754_nan => true | _ => false end.

(** The real number a finite [float] denotes; infinities and NaN have none. *)
Definition float_to_R (f : float) : option R :=
  match f with
  | S754_zero _ => Some 0%R
  | S754_finite s m e => Some (IZR (cond_Zopp s (Zpos m)) * powerRZ 2 e)%R
  | S754_infinity _ | S754_nan => None
  end.

(** ** The host toolkit: OpenSceneGraph *)

Module osg.

(** [osg::clampAbove] of <osg/Math>, which the source file includes but
    does not contain: [template<typename T> inline T clampAbove(T v, T
    minimum) { return v<minimum?minimum:v; }], with [<] the C++ comparison
    of [float]. *)
Definition clampAbove (v minimum : float) : float :=
  if SFltb v minimum then minimum else v.

(** Objects of class [osg::Uniform] live in a store and are referred to by
    address: the effect and the state set it is installed into share them. *)
Definition ptr : Type := positive.

Inductive UniformType := FLOAT | FLOAT_VEC4 | INT | BOOL.

Record Uniform := mkUniform {
  getType : UniformType;
  getName : string;
  getValue : float
}.

(** [new osg::Uniform(type, name)]: a fresh object whose value is zero. *)
Definition new_Uniform (type : UniformType) (name : string)
    (h : gmap ptr Uniform) : ptr * gmap ptr Uniform :=
  let p := fresh (dom h) in
  (p, <[p := mkUniform type name f_0_0]> h).

(** [uniform->set(float)]: stores the value when the uniform is a [FLOAT]
    one, and is refused otherwise. *)
Definition set_value (f : float) (u : Uniform) : Uniform :=
  match getType u with
  | FLOAT => mkUniform (getType u) (getName u) f
  | _ => u
  end.

Definition set (p : ptr) (f : float) (h : gmap ptr Uniform) : gmap ptr Uniform :=
  alter (set_value f) p h.

End osg.

(** ** Shader composition: osgEarth's VirtualProgram *)

Module ShaderComp.

(** The places of the composed shader pipeline a function can be attached
    to; the vertex stages come first. *)
Inductive FunctionLocation :=
  | LOCATION_VERTEX_MODEL
  | LOCATION_VERTEX_VIEW
  | LOCATION_VERTEX_CLIP
  | LOCATION_FRAGMENT_COLORING
  | LOCATION_FRAGMENT_LIGHTING.

#[global] Instance FunctionLocation_eq_dec : EqDecision FunctionLocation.
Proof. solve_decision. Defined.

End ShaderComp.

Module VirtualProgram.
Import ShaderComp.

Inductive ShaderType := VERTEX | FRAGMENT.

Record Shader := mkShader {
  shader_type : ShaderType;
  shader_source : string
}.

(** Modelled from the spec: class [VirtualProgram] of <osgEarth/VirtualProgram>
    is not part of the source file, which only calls its [getOrCreate],
    [get], [setFunction] and [removeShader]; the spec describes it as the
    host's shader composition, into which the effect "installs a
    vertex-shader function" and from which it "removes" it.  A virtual
    program holds its shaders by name and the list of the functions that
    the composed main calls, each at a location. *)
Record t := mk {
  _inherit : bool;
  _shaderMap : gmap string Shader;
  _functions : list (FunctionLocation * string)
}.

(** Modelled from the spec: a [new VirtualProgram()], as [getOrCreate]
    builds it when the state set has none; it has no shader and no function
    and inherits the shaders of the state sets above. *)
Definition new : t := mk true ∅ [].

Definition type_of (location : FunctionLocation) : ShaderType :=
  match location with
  | LOCATION_VERTEX_MODEL | LOCATION_VERTEX_VIEW | LOCATION_VERTEX_CLIP => VERTEX
  | LOCATION_FRAGMENT_COLORING | LOCATION_FRAGMENT_LIGHTING => FRAGMENT
  end.

(** Modelled from the spec: [vp->setFunction(name, source, location)]
    "installs a ... shader function": the function is entered once at the
    location, after the functions already there, and its source becomes the
    shader of that name. *)
Definition setFunction (functionName source : string)
    (location : FunctionLocation) (vp : t) : t :=
  mk (_inherit vp)
     (<[functionName := mkShader (type_of location) source]> (_shaderMap vp))
     (filter (λ e, e ≠ (location, functionName)) (_functions vp)
        ++ [(location, functionName)])%list.

(** Modelled from the spec: [vp->removeShader(shaderID)] "removes" the
    shader of that name and the function entries that call it. *)
Definition removeShader (shaderID : string) (vp : t) : t :=
  mk (_inherit vp)
     (delete shaderID (_shaderMap vp))
     (filter (λ e, e.2 ≠ shaderID) (_functions vp)).

End VirtualProgram.

Module StateSet.
Import osg.

(** [osg::StateAttribute::Values] *)
Definition ON : N := 1.
Definition OVERRIDE : N := 2.
Definition PROTECTED : N := 4.

(** An [osg::StateSet]: its uniforms by name, each with its override flags
    ([UniformList] is a [std::map<std::string, RefUniformPair>]); its
    VirtualProgram attribute, when it has one; its other attributes and its
    modes, which the effect never names. *)
Record t := mk {
  _uniformList : gmap string (ptr * N);
  _virtualProgram : option VirtualProgram.t;
  _attributeList : gmap N string;
  _modeList : gmap N N
}.

(** [new osg::StateSet] *)
Definition new : t := mk ∅ None ∅ ∅.

(** [stateset->addUniform(uniform)] of <osg/StateSet>, with the default
    [value = ON]: a null [uniform] is ignored; otherwise the entry under
    the uniform's name is this uniform (a different uniform of that name
    is replaced), with the flags [value & (OVERRIDE|PROTECTED)].  A pointer
    the store does not know plays the null pointer. *)
Definition addUniform (h : gmap ptr Uniform) (uniform : ptr) (stateset : t) : t :=
  match h !! uniform with
  | Some u =>
      mk (<[getName u := (uniform, N.land ON (N.lor OVERRIDE PROTECTED))]>
            (_uniformList stateset))
         (_virtualProgram stateset) (_attributeList stateset) (_modeList stateset)
  | None => stateset
  end.

(** [stateset->removeUniform(uniform)] of <osg/StateSet>: the entry under
    the uniform's name is erased when it holds this very uniform, and kept
    when it holds another one. *)
Definition removeUniform (h : gmap ptr Uniform) (uniform : ptr) (stateset : t) : t :=
  match h !! uniform with
  | Some u =>
      match _uniformList stateset !! getName u with
      | Some (p, _) =>
          if decide (p = uniform)
          then mk (delete (getName u) (_uniformList stateset))
                  (_virtualProgram stateset) (_attributeList stateset)
                  (_modeList stateset)
          else stateset
      | None => stateset
      end
  | None => stateset
  end.

(** The state set once the virtual program [vp] it points to has been
    changed in place (or attached, for a new one). *)
Definition storeVirtualProgram (stateset : t) (vp : VirtualProgram.t) : t :=
  mk (_uniformList stateset) (Some vp) (_attributeList stateset) (_modeList stateset).

End StateSet.

(** Modelled from the spec: [VirtualProgram::get(stateset)] of
    <osgEarth/VirtualProgram>, which is not part of the source file: the
    virtual program of the state set, or null when it has none. *)
Definition VirtualProgram_get (stateset : StateSet.t) : option VirtualProgram.t :=
  StateSet._virtualProgram stateset.

(** Modelled from the spec: [VirtualProgram::getOrCreate(stateset)] of
    <osgEarth/VirtualProgram>, which is not part of the source file: the
    virtual program of the state set; a state set without one is given a
    new one. *)
Definition VirtualProgram_getOrCreate (stateset : StateSet.t) : VirtualProgram.t :=
  match StateSet._virtualProgram stateset with
  | Some vp => vp
  | None => VirtualProgram.new
  end.

Module TerrainEngineNode.

(** Modelled from the spec: class [TerrainEngineNode] of
    <osgEarth/TerrainEngineNode> is not part of the source file; the spec
    calls it the terrain engine of the host, whose "shared rendering state"
    the effect is installed into.  As far as the effect sees it, it is an
    [osg::Node]: an object with a name and an optional state set. *)
Record t := mk {
  _name : string;
  _stateset : option StateSet.t
}.

(** [engine->getStateSet()]: the node's state set, or null. *)
Definition getStateSet (engine : t) : option StateSet.t := _stateset engine.

(** [engine->getOrCreateStateSet()]: a node without a state set is given
    a new one. *)
Definition getOrCreateStateSet (engine : t) : StateSet.t :=
  match _stateset engine with
  | Some stateset => stateset
  | None => StateSet.new
  end.

(** The node once the state set it points to has been changed in place
    (or attached, for a new one). *)
Definition storeStateSet (engine : t) (stateset : StateSet.t) : t :=
  mk (_name engine) (Some stateset).

End TerrainEngineNode.

(** ** GLSL values and built-in functions *)

Module GLSL.
Local Open Scope R_scope.

Record vec3 := mkvec3 { x3 : R; y3 : R; z3 : R }.
Record vec4 := mkvec4 { x : R; y : R; z : R; w : R }.

(** A [mat4] by its rows. *)
Record mat4 := mkmat4 { row0 : vec4; row1 : vec4; row2 : vec4; row3 : vec4 }.

(** [v.xyz] *)
Definition xyz (v : vec4) : vec3 := mkvec3 (x v) (y v) (z v).

(** [vec4(v, s)] *)
Definition vec4_of (v : vec3) (s : R) : vec4 := mkvec4 (x3 v) (y3 v) (z3 v) s.

Definition dot4 (a b : vec4) : R := x a * x b + y a * y b + z a * z b + w a * w b.

(** [m * v] *)
Definition mat4_mul (m : mat4) (v : vec4) : vec4 :=
  mkvec4 (dot4 (row0 m) v) (dot4 (row1 m) v) (dot4 (row2 m) v) (dot4 (row3 m) v).

(** [a + b] on [vec4] *)
Definition vec4_add (a b : vec4) : vec4 :=
  mkvec4 (x a + x b) (y a + y b) (z a + z b) (w a + w b).

(** [v * s] on [vec3] *)
Definition vec3_scale (v : vec3) (s : R) : vec3 :=
  mkvec3 (x3 v * s) (y3 v * s) (z3 v * s).

(** [a / b]: the result of a division by zero is undefined. *)
Definition div (a b : R) : option R :=
  if Req_dec_T b 0 then None else Some (a / b).

(** [v / s] on [vec3] *)
Definition vec3_div (v : vec3) (s : R) : option vec3 :=
  if Req_dec_T s 0 then None else Some (mkvec3 (x3 v / s) (y3 v / s) (z3 v / s)).

(** [length(v)] *)
Definition length (v : vec3) : R :=
  sqrt (x3 v * x3 v + y3 v * y3 v + z3 v * z3 v).

(** [min(a, b)]: [b] if [b < a], otherwise [a]. *)
Definition min (a b : R) : R := if Rlt_dec b a then b else a.

(** [max(a, b)]: [b] if [a < b], otherwise [a]. *)
Definition max (a b : R) : R := if Rlt_dec a b then b else a.

(** [clamp(v, minVal, maxVal)]: [min(max(v, minVal), maxVal)]; the result
    is undefined if [minVal > maxVal]. *)
Definition clamp (v minVal maxVal : R) : option R :=
  if Rlt_dec maxVal minVal then None else Some (min (max v minVal) maxVal).

(** [mix(a, b, t)]: the linear blend [a * (1 - t) + b * t]. *)
Definition mix (a b t : R) : R := a * (1 - t) + b * t.

End GLSL.

(** ** The effect *)

Module ElevationMorph.
Import osg ShaderComp.

(** The string [vs] of the source: the GLSL text that is handed to the
    host's shader composition. *)
Definition vs : string :=
"attribute vec4 oe_terrain_attr; 
attribute vec4 oe_terrain_attr2; 
uniform float oe_min_tile_range_factor; 
uniform vec4 oe_tile_key; 
uniform float osg_FrameTime; 
uniform float oe_tile_birthtime; 
uniform float oe_morph_delay; 
uniform float oe_morph_duration; 
void oe_morph_vertex(inout vec4 VertexMODEL) 
{ 
    float far        = oe_min_tile_range_factor; 
    float near       = far * 0.85; 
    vec4  VertexVIEW = gl_ModelViewMatrix * VertexMODEL; 
    float radius     = oe_tile_key.w; 
    float d          = length(VertexVIEW.xyz/VertexVIEW.w) - radius; 
    float a          = clamp( d/radius, near, far ); 
    float r_dist     = ((a-near)/(far-near)); 
    float r_time     = 1.0 - clamp(osg_FrameTime-(oe_tile_birthtime+oe_morph_delay), 0.0, oe_morph_duration)/oe_morph_duration; 
    float r          = max(r_dist, r_time); 
    vec3  upVector   = oe_terrain_attr.xyz; 
    float elev       = oe_terrain_attr.w; 
    float elevOld    = oe_terrain_attr2.w; 
    vec3  offset     = upVector * r * (elevOld - elev); 
    VertexMODEL      = VertexMODEL + vec4(offset/VertexMODEL.w, 0.0); 
} 
".

(** *** The shader function, as GLSL evaluates it *)

Section Shader.
Import GLSL.
Local Open Scope R_scope.

(** [uniform] declarations of [vs]. *)
Record Uniforms := mkUniforms {
  oe_min_tile_range_factor : R;
  oe_tile_key : vec4;
  osg_FrameTime : R;
  oe_tile_birthtime : R;
  oe_morph_delay : R;
  oe_morph_duration : R
}.

(** [attribute] declarations of [vs]. *)
Record Attributes := mkAttributes {
  oe_terrain_attr : vec4;
  oe_terrain_attr2 : vec4
}.

Variable u : Uniforms.
Variable attr : Attributes.
Variable gl_ModelViewMatrix : mat4.
Variable VertexMODEL : vec4.

Definition far : R := oe_min_tile_range_factor u.
Definition near : R := far * 0.85.
Definition VertexVIEW : vec4 := mat4_mul gl_ModelViewMatrix VertexMODEL.
Definition radius : R := w (oe_tile_key u).

(** [d = length(VertexVIEW.xyz/VertexVIEW.w) - radius] *)
Definition d : option R :=
  p ← vec3_div (xyz VertexVIEW) (w VertexVIEW);
  Some (length p - radius).

(** [a = clamp( d/radius, near, far )] *)
Definition a : option R :=
  d ← d;
  q ← div d radius;
  clamp q near far.

(** [r_dist = ((a-near)/(far-near))] *)
Definition r_dist : option R :=
  a ← a;
  div (a - near) (far - near).

(** [r_time = 1.0 - clamp(osg_FrameTime-(oe_tile_birthtime+oe_morph_delay),
    0.0, oe_morph_duration)/oe_morph_duration] *)
Definition r_time : option R :=
  c ← clamp (osg_FrameTime u - (oe_tile_birthtime u + oe_morph_delay u))
            0 (oe_morph_duration u);
  q ← div c (oe_morph_duration u);
  Some (1 - q).

(** [r = max(r_dist, r_time)] *)
Definition r : option R :=
  r_dist ← r_dist;
  r_time ← r_time;
  Some (max r_dist r_time).

Definition upVector : vec3 := xyz (oe_terrain_attr attr).
Definition elev : R := w (oe_terrain_attr attr).
Definition elevOld : R := w (oe_terrain_attr2 attr).

(** [offset = upVector * r * (elevOld - elev)] *)
Definition offset (r : R) : vec3 :=
  vec3_scale (vec3_scale upVector r) (elevOld - elev).

(** [void oe_morph_vertex(inout vec4 VertexMODEL)]: the value of
    [VertexMODEL] on return, undefined when one of the operations on the
    way is. *)
Definition oe_morph_vertex : option vec4 :=
  r ← r;
  o ← vec3_div (offset r) (w VertexMODEL);
  Some (vec4_add VertexMODEL (vec4_of o 0)).

End Shader.

(** *** The C++ class *)

(** The data members of an [ElevationMorph]; the two [ref_ptr]s hold the
    addresses of the effect's uniform objects. *)
Record t := mk {
  _delay : float;
  _duration : float;
  _delayUniform : ptr;
  _durationUniform : ptr
}.

(** [ElevationMorph::ElevationMorph()], in the store [h] of uniforms. *)
Definition new (h : gmap ptr Uniform) : t * gmap ptr Uniform :=
  let delay := f_0_0 in
  let duration := f_0_25 in
  let '(delayUniform, h) := new_Uniform FLOAT "oe_morph_delay" h in
  let h := set delayUniform delay h in
  let '(durationUniform, h) := new_Uniform FLOAT "oe_morph_duration" h in
  let h := set durationUniform duration h in
  (mk delay duration delayUniform durationUniform, h).

(** [ElevationMorph::setDelay(float delay)] *)
Definition setDelay (delay : float) (self : t) (h : gmap ptr Uniform)
    : t * gmap ptr Uniform :=
  let self := mk (clampAbove delay f_0_0) (_duration self)
                 (_delayUniform self) (_durationUniform self) in
  (self, set (_delayUniform self) (_delay self) h).

(** [ElevationMorph::setDuration(float duration)] *)
Definition setDuration (duration : float) (self : t) (h : gmap ptr Uniform)
    : t * gmap ptr Uniform :=
  let self := mk (_delay self) (clampAbove duration f_0_0)
                 (_delayUniform self) (_durationUniform self) in
  (self, set (_durationUniform self) (_duration self) h).

(** [ElevationMorph::onInstall(TerrainEngineNode* engine)]: the engine
    after the call; [None] is the null pointer. *)
Definition onInstall (self : t) (h : gmap ptr Uniform)
    (engine : option TerrainEngineNode.t) : option TerrainEngineNode.t :=
  match engine with
  | Some node =>
      let stateset := TerrainEngineNode.getOrCreateStateSet node in
      let stateset := StateSet.addUniform h (_delayUniform self) stateset in
      let stateset := StateSet.addUniform h (_durationUniform self) stateset in
      let vp := VirtualProgram_getOrCreate stateset in
      let vp := VirtualProgram.setFunction "oe_morph_vertex" vs
                  LOCATION_VERTEX_MODEL vp in
      Some (TerrainEngineNode.storeStateSet node
              (StateSet.storeVirtualProgram stateset vp))
  | None => None
  end.

(** [ElevationMorph::onUninstall(TerrainEngineNode* engine)]: the engine
    after the call; [None] is the null pointer. *)
Definition onUninstall (self : t) (h : gmap ptr Uniform)
    (engine : option TerrainEngineNode.t) : option TerrainEngineNode.t :=
  match engine with
  | Some node =>
      match TerrainEngineNode.getStateSet node with
      | Some stateset =>
          let stateset := StateSet.removeUniform h (_delayUniform self) stateset in
          let stateset := StateSet.removeUniform h (_durationUniform self) stateset in
          match VirtualProgram_get stateset with
          | Some vp =>
              let vp := VirtualProgram.removeShader "oe_morph_vertex" vp in
              Some (TerrainEngineNode.storeStateSet node
                      (StateSet.storeVirtualProgram stateset vp))
          | None => Some (TerrainEngineNode.storeStateSet node stateset)
          end
      | None => Some node
      end
  | None => None
  end.

End ElevationMorph.

(** ** The effect in its host *)

(** What a run of the host can see: the effect object, the store of uniform
    objects, and the terrain engine the host passes to the effect. *)
Record State := mkState {
  self : ElevationMorph.t;
  uniforms : gmap osg.ptr osg.Uniform;
  engine : TerrainEngineNode.t
}.

(** The calls the host can make on a constructed effect. *)
Inductive Call :=
  | SetDelay (delay : float)
  | SetDuration (duration : float)
  | OnInstall
  | OnUninstall.

(** Construction of the effect next to an engine, in a store [h]. *)
Definition construct (h : gmap osg.ptr osg.Uniform) (node : TerrainEngineNode.t) : State :=
  let '(e, h) := ElevationMorph.new h in mkState e h node.

Definition call (c : Call) (s : State) : State :=
  match c with
  | SetDelay delay =>
      let '(e, h) := ElevationMorph.setDelay delay (self s) (uniforms s) in
      mkState e h (engine s)
  | SetDuration duration =>
      let '(e, h) := ElevationMorph.setDuration duration (self s) (uniforms s) in
      mkState e h (engine s)
  | OnInstall =>
      mkState (self s) (uniforms s)
        (default (engine s)
           (ElevationMorph.onInstall (self s) (uniforms s) (Some (engine s))))
  | OnUninstall =>
      mkState (self s) (uniforms s)
        (default (engine s)
           (ElevationMorph.onUninstall (self s) (uniforms s) (Some (engine s))))
  end.

Definition run (cs : list Call) (s : State) : State :=
  fold_left (λ s c, call c s) cs s.

Definition is_setter (c : Call) : bool :=
  match c with SetDelay _ | SetDuration _ => true | _ => false end.

(** The argument of a setter call is a NaN. *)
Definition passes_nan (c : Call) : bool :=
  match c with
  | SetDelay f | SetDuration f => is_nan f
  | _ => false
  end.

(** The effect's two uniform objects are in the store, under their names,
    and hold the values of [_delay] and [_duration]. *)
Definition uniforms_in_sync (e : ElevationMorph.t) (h : gmap osg.ptr osg.Uniform) : Prop :=
  h !! ElevationMorph._delayUniform e
    = Some (osg.mkUniform osg.FLOAT "oe_morph_delay" (ElevationMorph._delay e)) ∧
  h !! ElevationMorph._durationUniform e
    = Some (osg.mkUniform osg.FLOAT "oe_morph_duration" (ElevationMorph._duration e)).

(** The uniform of address [p] is not an entry of the state set. *)
Definition not_installed (p : osg.ptr) (stateset : StateSet.t) : Prop :=
  ∀ name flags, StateSet._uniformList stateset !! name ≠ Some (p, flags).

(** No function of the virtual program has the name [name]. *)
Definition no_function (name : string) (vp : VirtualProgram.t) : Prop :=
  ∀ location, (location, name) ∉ VirtualProgram._functions vp.

(** ** Concrete inputs *)

(** An engine without a state set, and an effect built in an empty store. *)
Definition bare_engine : TerrainEngineNode.t := TerrainEngineNode.mk "engine" None.
Definition fresh_effect : ElevationMorph.t := (ElevationMorph.new ∅).1.
Definition fresh_store : gmap osg.ptr osg.Uniform := (ElevationMorph.new ∅).2.

(** An engine whose state set is empty, and one whose state set has an empty
    virtual program. *)
Definition plain_engine : TerrainEngineNode.t :=
  TerrainEngineNode.mk "engine" (Some StateSet.new).
Definition ready_engine : TerrainEngineNode.t :=
  TerrainEngineNode.mk "engine"
    (Some (StateSet.mk ∅ (Some VirtualProgram.new) ∅ ∅)).

(** Every uniform the engine's state set refers to is an object of the
    store. *)
Definition engine_known (h : gmap osg.ptr osg.Uniform) (node : TerrainEngineNode.t) : Prop :=
  ∀ stateset name p flags,
    TerrainEngineNode._stateset node = Some stateset →
    StateSet._uniformList stateset !! name = Some (p, flags) →
    is_Some (h !! p).

(** The [float]s [-1.0f] and [2.0f]. *)
Definition f_neg_1_0 : float :=
  Eval cbv in binary_normalize float_prec float_emax (-1) 0 false.
Definition f_2_0 : float :=
  Eval cbv in binary_normalize float_prec float_emax 2 0 false.

(** The uniforms [u] at the frame time [t]. *)
Definition at_time (u : ElevationMorph.Uniforms) (t : R) : ElevationMorph.Uniforms :=
  ElevationMorph.mkUniforms
    (ElevationMorph.oe_min_tile_range_factor u) (ElevationMorph.oe_tile_key u)
    t (ElevationMorph.oe_tile_birthtime u)
    (ElevationMorph.oe_morph_delay u) (ElevationMorph.oe_morph_duration u).

(** The uniforms [u] with the morph duration [duration]. *)
Definition with_duration (u : ElevationMorph.Uniforms) (duration : R)
    : ElevationMorph.Uniforms :=
  ElevationMorph.mkUniforms
    (ElevationMorph.oe_min_tile_range_factor u) (ElevationMorph.oe_tile_key u)
    (ElevationMorph.osg_FrameTime u) (ElevationMorph.oe_tile_birthtime u)
    (ElevationMorph.oe_morph_delay u) duration.

(** A tile of radius 1 under the range factor 6, born at time 0 and seen at
    time 10, with the delay and the duration the effect is constructed with;
    the same with the range factor 0. *)
Definition tile_uniforms : ElevationMorph.Uniforms :=
  ElevationMorph.mkUniforms 6 (GLSL.mkvec4 0 0 0 1) 10 0 0 (1/4).
Definition flat_uniforms : ElevationMorph.Uniforms :=
  ElevationMorph.mkUniforms 0 (GLSL.mkvec4 0 0 0 1) 10 0 0 (1/4).

(** A vertex whose up vector is the z axis, with the new elevation 5 and the
    old elevation 3. *)
Definition tile_attributes : ElevationMorph.Attributes :=
  ElevationMorph.mkAttributes (GLSL.mkvec4 0 0 1 5) (GLSL.mkvec4 0 0 1 3).

Definition identity : GLSL.mat4 :=
  GLSL.mkmat4 (GLSL.mkvec4 1 0 0 0) (GLSL.mkvec4 0 1 0 0)
              (GLSL.mkvec4 0 0 1 0) (GLSL.mkvec4 0 0 0 1).

(** The point at the distance [c] in front of the camera. *)
Definition ahead (c : R) : GLSL.vec4 := GLSL.mkvec4 0 0 (- c) 1.

(** The time the morph of a tile has been running for: the frame time less
    the tile's birth time and the delay. *)
Definition elapsed (u : ElevationMorph.Uniforms) : R :=
  (ElevationMorph.osg_FrameTime u
   - (ElevationMorph.oe_tile_birthtime u + ElevationMorph.oe_morph_delay u))%R.

(** The same tile born at time 2 and seen at time 12. *)
Definition later_uniforms : ElevationMorph.Uniforms :=
  ElevationMorph.mkUniforms 6 (GLSL.mkvec4 0 0 0 1) 12 2 0 (1/4).

(** ** What the renderer reads *)

(** The value the renderer reads for the uniform [name] of a state set: the
    value of the uniform object the entry refers to. *)
Definition seen_value (h : gmap osg.ptr osg.Uniform) (stateset : StateSet.t)
    (name : string) : option float :=
  entry ← StateSet._uniformList stateset !! name;
  osg.getValue <$> h !! entry.1.

(** A second effect, built in the store of the first. *)
Definition second_effect : ElevationMorph.t := (ElevationMorph.new fresh_store).1.
Definition both_store : gmap osg.ptr osg.Uniform := (ElevationMorph.new fresh_store).2.

(** The tile seen at the time of its birth, and one whose old and new
    elevations are the same. *)
Definition newborn_uniforms : ElevationMorph.Uniforms :=
  ElevationMorph.mkUniforms 6 (GLSL.mkvec4 0 0 0 1) 0 0 0 (1/4).
Definition level_attributes : ElevationMorph.Attributes :=
  ElevationMorph.mkAttributes (GLSL.mkvec4 0 0 1 5) (GLSL.mkvec4 0 0 1 5).

(** The shader uniforms [u] carry, for the delay and the duration, the real
    values of the effect's two uniform objects. *)
Definition reads (h : gmap osg.ptr osg.Uniform) (e : ElevationMorph.t)
    (u : ElevationMorph.Uniforms) : Prop :=
  (h !! ElevationMorph._delayUniform e) ≫= (λ o, float_to_R (osg.getValue o))
    = Some (ElevationMorph.oe_morph_delay u) ∧
  (h !! ElevationMorph._durationUniform e) ≫= (λ o, float_to_R (osg.getValue o))
    = Some (ElevationMorph.oe_morph_duration u).

(** The tile seen halfway through its morph. *)
Definition midway_uniforms : ElevationMorph.Uniforms :=
  ElevationMorph.mkUniforms 6 (GLSL.mkvec4 0 0 0 1) (1/8) 0 0 (1/4).

(** The point of space a homogeneous vertex stands for: [v.xyz / v.w]. *)
Definition position (v : GLSL.vec4) : option GLSL.vec3 :=
  GLSL.vec3_div (GLSL.xyz v) (GLSL.w v).

(** The point at the distance 10 in front of the camera, written with
    [w = 1/2]. *)
Definition ahead_half : GLSL.vec4 := GLSL.mkvec4 0 0 (- 5) (1/2).

(** * Properties *)

(** ** Clamping *)

Section Clamp.
Import osg.

Lemma clampAbove_not_below (v : float) : SFltb (clampAbove v f_0_0) f_0_0 = false.
Proof.
  unfold clampAbove. destruct (SFltb v f_0_0) eqn:E; [reflexivity | exact E].
Qed.

Lemma clampAbove_negative (v : float) :
  SFltb v f_0_0 = true → clampAbove v f_0_0 = f_0_0.
Proof. unfold clampAbove. intros ->. reflexivity. Qed.

Lemma clampAbove_keeps (v : float) :
  SFltb v f_0_0 = false → clampAbove v f_0_0 = v.
Proof. unfold clampAbove. intros ->. reflexivity. Qed.

Lemma clampAbove_nonneg (v : float) :
  is_nan v = false → SFleb f_0_0 (clampAbove v f_0_0) = true.
Proof.
  unfold clampAbove. destruct v as [s | s | | s m e]; try destruct s; cbn; congruence.
Qed.

Example literals_are_floats :
  is_float f_0_0 = true ∧ is_float f_0_25 = true ∧
  is_float f_neg_1_0 = true ∧ is_float f_2_0 = true.
Proof. repeat split. Qed.

Example clampAbove_examples :
  clampAbove f_neg_1_0 f_0_0 = f_0_0 ∧ clampAbove f_2_0 f_0_0 = f_2_0 ∧
  clampAbove (S754_zero true) f_0_0 = S754_zero true ∧
  clampAbove (S754_infinity false) f_0_0 = S754_infinity false ∧
  clampAbove (S754_infinity true) f_0_0 = f_0_0.
Proof. repeat split. Qed.

Lemma clampAbove_nan : clampAbove S754_nan f_0_0 = S754_nan.
Proof. reflexivity. Qed.

Lemma clampAbove_is_float (v : float) :
  is_float v = true → is_float (clampAbove v f_0_0) = true.
Proof. unfold clampAbove. destruct (SFltb v f_0_0); [reflexivity | tauto]. Qed.

End Clamp.

(** ** The store of uniforms *)

Section Store.
Import osg ElevationMorph.
Implicit Types (h : gmap ptr Uniform) (e : ElevationMorph.t).

Lemma new_Uniform_fresh type name h : h !! (new_Uniform type name h).1 = None.
Proof. cbn. apply not_elem_of_dom, is_fresh. Qed.

Lemma set_lookup_ne p q f h : p ≠ q → set p f h !! q = h !! q.
Proof. intros Hne. unfold set. by rewrite lookup_alter_ne. Qed.

Lemma set_lookup_float p f h name v :
  h !! p = Some (mkUniform FLOAT name v) →
  set p f h !! p = Some (mkUniform FLOAT name f).
Proof. intros Hp. unfold set. rewrite lookup_alter_eq, Hp. reflexivity. Qed.

Lemma set_dom p f h : dom (set p f h) = dom h.
Proof. unfold set. apply dom_alter_L. Qed.

Lemma set_getName p f h q : getName <$> set p f h !! q = getName <$> h !! q.
Proof.
  unfold set. destruct (decide (p = q)) as [-> | Hne].
  - rewrite lookup_alter_eq. destruct (h !! q) as [[ty n v] |]; [| reflexivity].
    cbn. unfold set_value. by destruct ty.
  - by rewrite lookup_alter_ne.
Qed.

Lemma sync_distinct e h : uniforms_in_sync e h → _delayUniform e ≠ _durationUniform e.
Proof. intros [H1 H2] Heq. rewrite Heq, H2 in H1. discriminate. Qed.

Lemma new_in_sync h : uniforms_in_sync (new h).1 (new h).2.
Proof.
  unfold new, new_Uniform. cbn [fst snd].
  set (p1 := fresh (dom h)).
  set (h1 := set p1 f_0_0 (<[p1 := _]> h)).
  set (p2 := fresh (dom h1)).
  assert (Hp2 : h1 !! p2 = None) by apply not_elem_of_dom, is_fresh.
  assert (Hp1 : h1 !! p1 = Some (mkUniform FLOAT "oe_morph_delay" f_0_0)).
  { unfold h1. eapply set_lookup_float. apply lookup_insert_eq. }
  assert (Hne : p2 ≠ p1) by congruence.
  split; cbn [fst snd _delayUniform _durationUniform _delay _duration].
  - rewrite set_lookup_ne by done. rewrite lookup_insert_ne by done. exact Hp1.
  - eapply set_lookup_float. apply lookup_insert_eq.
Qed.

Lemma new_keeps h p : is_Some (h !! p) → (new h).2 !! p = h !! p.
Proof.
  intros Hp. unfold new, new_Uniform. cbn [fst snd].
  set (p1 := fresh (dom h)).
  set (h1 := set p1 f_0_0 (<[p1 := _]> h)).
  set (p2 := fresh (dom h1)).
  assert (Hp1 : p1 ≠ p).
  { intros Heq. apply (is_fresh (dom h)). fold p1. rewrite Heq.
    by apply elem_of_dom. }
  assert (Hh1 : h1 !! p = h !! p).
  { unfold h1. rewrite set_lookup_ne by done. by rewrite lookup_insert_ne. }
  assert (Hp2 : p2 ≠ p).
  { intros Heq. apply (is_fresh (dom h1)). fold p2. rewrite Heq.
    apply elem_of_dom. by rewrite Hh1. }
  rewrite set_lookup_ne by done. by rewrite lookup_insert_ne.
Qed.

Lemma setDelay_in_sync f e h :
  uniforms_in_sync e h → uniforms_in_sync (setDelay f e h).1 (setDelay f e h).2.
Proof.
  intros Hs. pose proof (sync_distinct _ _ Hs) as Hne. destruct Hs as [H1 H2].
  unfold setDelay.
  split; cbn [fst snd _delayUniform _durationUniform _delay _duration].
  - by eapply set_lookup_float.
  - by rewrite set_lookup_ne.
Qed.

Lemma setDuration_in_sync f e h :
  uniforms_in_sync e h → uniforms_in_sync (setDuration f e h).1 (setDuration f e h).2.
Proof.
  intros Hs. pose proof (sync_distinct _ _ Hs) as Hne. destruct Hs as [H1 H2].
  unfold setDuration.
  split; cbn [fst snd _delayUniform _durationUniform _delay _duration].
  - by rewrite set_lookup_ne.
  - by eapply set_lookup_float.
Qed.

End Store.

(** ** State sets and virtual programs *)

Section Host.
Import osg ShaderComp ElevationMorph.
Implicit Types (h : gmap ptr Uniform) (e : ElevationMorph.t).
Implicit Types (stateset : StateSet.t) (vp : VirtualProgram.t).

Lemma addUniform_known h p u stateset :
  h !! p = Some u →
  StateSet.addUniform h p stateset
  = StateSet.mk (<[getName u := (p, 0%N)]> (StateSet._uniformList stateset))
      (StateSet._virtualProgram stateset) (StateSet._attributeList stateset)
      (StateSet._modeList stateset).
Proof. intros Hp. unfold StateSet.addUniform. rewrite Hp. reflexivity. Qed.

Lemma removeUniform_own h p u flags stateset :
  h !! p = Some u →
  StateSet._uniformList stateset !! getName u = Some (p, flags) →
  StateSet.removeUniform h p stateset
  = StateSet.mk (delete (getName u) (StateSet._uniformList stateset))
      (StateSet._virtualProgram stateset) (StateSet._attributeList stateset)
      (StateSet._modeList stateset).
Proof.
  intros Hp Hl. unfold StateSet.removeUniform. rewrite Hp, Hl.
  by rewrite decide_True.
Qed.

Lemma removeUniform_other h p stateset :
  not_installed p stateset → StateSet.removeUniform h p stateset = stateset.
Proof.
  intros Hn. unfold StateSet.removeUniform.
  destruct (h !! p) as [u |]; [| reflexivity].
  destruct (StateSet._uniformList stateset !! getName u) as [[q flags] |] eqn:Hl;
    [| reflexivity].
  destruct (decide (q = p)) as [-> | _]; [| reflexivity].
  by destruct (Hn _ _ Hl).
Qed.

(** What [removeUniform] does to the entries of the state set, whatever
    it holds. *)
Lemma removeUniform_spec h p u stateset :
  h !! p = Some u →
  let stateset' := StateSet.removeUniform h p stateset in
  (∀ name, name ≠ getName u →
     StateSet._uniformList stateset' !! name = StateSet._uniformList stateset !! name) ∧
  (∀ q flags, q ≠ p →
     StateSet._uniformList stateset !! getName u = Some (q, flags) →
     StateSet._uniformList stateset' !! getName u = Some (q, flags)) ∧
  (∀ flags, StateSet._uniformList stateset' !! getName u ≠ Some (p, flags)) ∧
  StateSet._virtualProgram stateset' = StateSet._virtualProgram stateset ∧
  StateSet._attributeList stateset' = StateSet._attributeList stateset ∧
  StateSet._modeList stateset' = StateSet._modeList stateset.
Proof.
  intros Hp. cbn zeta. unfold StateSet.removeUniform. rewrite Hp.
  destruct (StateSet._uniformList stateset !! getName u) as [[q flags] |] eqn:Hl.
  - destruct (decide (q = p)) as [-> | Hne]; cbn; split_and!; try done.
    + intros name Hname. by rewrite lookup_delete_ne.
    + congruence.
    + intros fl. by rewrite lookup_delete_eq.
    + intros q' fl _ [= <- <-]. exact Hl.
    + intros fl. rewrite Hl. congruence.
  - split_and!; try done. intros fl. by rewrite Hl.
Qed.

Lemma filter_others (location : FunctionLocation) (name : string)
    (fs : list (FunctionLocation * string)) :
  (∀ l, (l, name) ∉ fs) → filter (λ f, f.2 ≠ name) fs = fs.
Proof.
  intros Hn. induction fs as [| [l n] fs IH]; [reflexivity |].
  rewrite filter_cons. cbn. destruct (decide (n ≠ name)) as [Hne | Heq].
  - f_equal. apply IH. intros l' Hin. apply (Hn l'). by right.
  - exfalso. apply (Hn l). apply dec_stable in Heq. subst. by left.
Qed.

Lemma filter_entry (location : FunctionLocation) (name : string)
    (fs : list (FunctionLocation * string)) :
  (∀ l, (l, name) ∉ fs) → filter (λ f, f ≠ (location, name)) fs = fs.
Proof.
  intros Hn. induction fs as [| [l n] fs IH]; [reflexivity |].
  rewrite filter_cons. destruct (decide ((l, n) ≠ (location, name))) as [Hne | Heq].
  - f_equal. apply IH. intros l' Hin. apply (Hn l'). by right.
  - exfalso. apply dec_stable in Heq. injection Heq as -> ->.
    apply (Hn location). by left.
Qed.

Lemma removeShader_gone name vp :
  VirtualProgram._shaderMap (VirtualProgram.removeShader name vp) !! name = None ∧
  no_function name (VirtualProgram.removeShader name vp).
Proof.
  split; cbn.
  - apply lookup_delete_eq.
  - intros l Hin. apply list_elem_of_filter in Hin as [Hne _]. by apply Hne.
Qed.

Lemma setFunction_removeShader name source location vp :
  VirtualProgram._shaderMap vp !! name = None →
  no_function name vp →
  VirtualProgram.removeShader name (VirtualProgram.setFunction name source location vp)
  = vp.
Proof.
  intros Hs Hf. destruct vp as [inh sm fs]. cbn in *.
  unfold VirtualProgram.removeShader, VirtualProgram.setFunction. cbn.
  f_equal.
  - by rewrite delete_insert_eq, delete_id.
  - rewrite (filter_entry location name fs Hf).
    rewrite filter_app, (filter_others location name fs Hf).
    rewrite filter_cons, filter_nil. cbn. rewrite decide_False by tauto.
    apply app_nil_r.
Qed.

End Host.

(** ** Installing and uninstalling *)

Section Lifecycle.
Import osg ShaderComp ElevationMorph.
Implicit Types (h : gmap ptr Uniform) (e : ElevationMorph.t).
Implicit Types (stateset : StateSet.t) (vp : VirtualProgram.t).
Implicit Types (node : TerrainEngineNode.t).


Lemma onInstall_installs_aux e h node :
  uniforms_in_sync e h →
  ∃ stateset' vp',
    onInstall e h (Some node)
      = Some (TerrainEngineNode.mk (TerrainEngineNode._name node) (Some stateset')) ∧
    StateSet._virtualProgram stateset' = Some vp' ∧
    StateSet._uniformList stateset'
      = <["oe_morph_duration" := (_durationUniform e, 0%N)]>
          (<["oe_morph_delay" := (_delayUniform e, 0%N)]>
             (StateSet._uniformList (TerrainEngineNode.getOrCreateStateSet node))) ∧
    StateSet._attributeList stateset'
      = StateSet._attributeList (TerrainEngineNode.getOrCreateStateSet node) ∧
    StateSet._modeList stateset'
      = StateSet._modeList (TerrainEngineNode.getOrCreateStateSet node) ∧
    vp' = VirtualProgram.setFunction "oe_morph_vertex" vs LOCATION_VERTEX_MODEL
            (VirtualProgram_getOrCreate (TerrainEngineNode.getOrCreateStateSet node)).
Proof.
  intros [Hd Hu].
  eexists _, _. split.
  { unfold onInstall.
    rewrite (addUniform_known _ _ _ _ Hd).
    rewrite (addUniform_known _ _ _ _ Hu). reflexivity. }
  cbn. split_and!; reflexivity.
Qed.

(** C1: for every non-null engine, [onInstall] enters the effect's two
    uniforms, under the names "oe_morph_delay" and "oe_morph_duration", in
    the uniform list of the engine's state set (created when the engine had
    none) and changes no other entry, attribute or mode; where neither name
    was in use the list grows by exactly two.  It makes "oe_morph_vertex" a
    vertex shader of the state set's VirtualProgram with the source [vs],
    called once, at the vertex-model location. *)
Theorem onInstall_installs e h node :
  uniforms_in_sync e h →
  let stateset := TerrainEngineNode.getOrCreateStateSet node in
  let vp := VirtualProgram_getOrCreate stateset in
  ∃ stateset' vp',
    onInstall e h (Some node)
      = Some (TerrainEngineNode.mk (TerrainEngineNode._name node) (Some stateset')) ∧
    StateSet._virtualProgram stateset' = Some vp' ∧
    StateSet._uniformList stateset'
      = <["oe_morph_duration" := (_durationUniform e, 0%N)]>
          (<["oe_morph_delay" := (_delayUniform e, 0%N)]>
             (StateSet._uniformList stateset)) ∧
    (StateSet._uniformList stateset !! "oe_morph_delay" = None →
     StateSet._uniformList stateset !! "oe_morph_duration" = None →
     size (StateSet._uniformList stateset')
       = S (S (size (StateSet._uniformList stateset)))) ∧
    StateSet._attributeList stateset' = StateSet._attributeList stateset ∧
    StateSet._modeList stateset' = StateSet._modeList stateset ∧
    VirtualProgram._shaderMap vp'
      = <["oe_morph_vertex" := VirtualProgram.mkShader VirtualProgram.VERTEX vs]>
          (VirtualProgram._shaderMap vp) ∧
    VirtualProgram._functions vp'
      = (filter (λ f, f ≠ (LOCATION_VERTEX_MODEL, "oe_morph_vertex"))
           (VirtualProgram._functions vp)
         ++ [(LOCATION_VERTEX_MODEL, "oe_morph_vertex")])%list ∧
    VirtualProgram._inherit vp' = VirtualProgram._inherit vp.
Proof.
  intros Hs stateset vp.
  destruct (onInstall_installs_aux e h node Hs)
    as (ss1 & vp1 & Hi & Hvp1 & Hul & Hal & Hml & Hvp).
  exists ss1, vp1. subst vp1. split_and!; try done.
  intros H1 H2. rewrite Hul. rewrite !map_size_insert_None; [done | done |].
  by rewrite lookup_insert_ne.
Qed.

Lemma onInstall_installs_witness :
  uniforms_in_sync fresh_effect fresh_store ∧
  ∃ stateset', onInstall fresh_effect fresh_store (Some bare_engine)
               = Some (TerrainEngineNode.mk "engine" (Some stateset')) ∧
               size (StateSet._uniformList stateset') = 2%nat.
Proof.
  assert (Hs : uniforms_in_sync fresh_effect fresh_store).
  { split; vm_compute; reflexivity. }
  split; [exact Hs |].
  destruct (onInstall_installs fresh_effect fresh_store bare_engine Hs)
    as (stateset' & vp' & Hi & _ & _ & Hsize & _).
  exists stateset'. split; [exact Hi |].
  rewrite Hsize; reflexivity.
Defined.

(** C2: for every non-null engine, after [onInstall] and then
    [onUninstall] neither uniform name has an entry in the state set and
    "oe_morph_vertex" is neither a shader nor a function of its
    VirtualProgram; the state set and the VirtualProgram that [onInstall]
    created stay.  An engine that had a state set with a VirtualProgram in
    which none of the three names was in use is exactly what it was. *)
Theorem install_then_uninstall e h node :
  uniforms_in_sync e h →
  ∃ stateset' vp',
    onUninstall e h (onInstall e h (Some node))
      = Some (TerrainEngineNode.mk (TerrainEngineNode._name node) (Some stateset')) ∧
    StateSet._virtualProgram stateset' = Some vp' ∧
    StateSet._uniformList stateset' !! "oe_morph_delay" = None ∧
    StateSet._uniformList stateset' !! "oe_morph_duration" = None ∧
    VirtualProgram._shaderMap vp' !! "oe_morph_vertex" = None ∧
    no_function "oe_morph_vertex" vp' ∧
    StateSet._attributeList stateset'
      = StateSet._attributeList (TerrainEngineNode.getOrCreateStateSet node) ∧
    StateSet._modeList stateset'
      = StateSet._modeList (TerrainEngineNode.getOrCreateStateSet node) ∧
    (∀ stateset vp,
       TerrainEngineNode._stateset node = Some stateset →
       StateSet._virtualProgram stateset = Some vp →
       StateSet._uniformList stateset !! "oe_morph_delay" = None →
       StateSet._uniformList stateset !! "oe_morph_duration" = None →
       VirtualProgram._shaderMap vp !! "oe_morph_vertex" = None →
       no_function "oe_morph_vertex" vp →
       TerrainEngineNode.mk (TerrainEngineNode._name node) (Some stateset') = node).
Proof.
  intros Hs. pose proof Hs as [Hd Hu].
  destruct (onInstall_installs_aux e h node Hs) as (ss1 & vp1 & Hi & Hvp1 & Hul & Hal & Hml & Hvp).
  rewrite Hi. unfold onUninstall.
  cbn [TerrainEngineNode.getStateSet TerrainEngineNode._stateset].
  assert (H1 : StateSet._uniformList ss1 !! "oe_morph_delay" = Some (_delayUniform e, 0%N)).
  { rewrite Hul, lookup_insert_ne by done. apply lookup_insert_eq. }
  rewrite (removeUniform_own h _ _ 0%N ss1 Hd H1).
  set (ss2 := StateSet.mk _ _ _ _).
  assert (H2 : StateSet._uniformList ss2 !! "oe_morph_duration"
               = Some (_durationUniform e, 0%N)).
  { cbn. rewrite lookup_delete_ne by done. rewrite Hul. apply lookup_insert_eq. }
  rewrite (removeUniform_own h _ _ 0%N ss2 Hu H2).
  cbn [VirtualProgram_get StateSet._virtualProgram ss2 getName].
  rewrite Hvp1.
  eexists _, _. split; [reflexivity |].
  cbn [StateSet._virtualProgram StateSet._uniformList StateSet.storeVirtualProgram
       TerrainEngineNode.storeStateSet TerrainEngineNode._name].
  split; [reflexivity |].
  split; [rewrite lookup_delete_ne by done; apply lookup_delete_eq |].
  split; [apply lookup_delete_eq |].
  split; [apply removeShader_gone |].
  split; [apply removeShader_gone |].
  split; [exact Hal |]. split; [exact Hml |].
  intros stateset vp Hss Hv Hn1 Hn2 Hn3 Hn4.
  clear Hi H1 H2. subst ss2.
  destruct node as [name ss0]. cbn in Hss. subst ss0.
  destruct stateset as [ul ovp al ml]. cbn in Hv, Hn1, Hn2. subst ovp.
  destruct ss1 as [ul1 ovp1 al1 ml1].
  cbn in Hul, Hal, Hml, Hvp, Hvp1. subst ul1 al1 ml1 ovp1 vp1.
  unfold StateSet.storeVirtualProgram.
  cbn [StateSet._virtualProgram StateSet._uniformList StateSet._attributeList
       StateSet._modeList TerrainEngineNode._name getName].
  rewrite setFunction_removeShader by done.
  rewrite delete_insert_ne by done.
  rewrite !delete_insert_eq.
  rewrite (delete_id ul "oe_morph_delay") by done.
  rewrite delete_id by done.
  reflexivity.
Qed.

Lemma install_then_uninstall_witness :
  uniforms_in_sync fresh_effect fresh_store ∧
  onUninstall fresh_effect fresh_store
    (onInstall fresh_effect fresh_store (Some ready_engine))
  = Some ready_engine.
Proof.
  assert (Hs : uniforms_in_sync fresh_effect fresh_store).
  { split; vm_compute; reflexivity. }
  split; [exact Hs |].
  destruct (install_then_uninstall fresh_effect fresh_store ready_engine Hs)
    as (stateset' & vp' & Hr & _ & _ & _ & _ & _ & _ & _ & Hback).
  rewrite Hr. f_equal.
  apply (Hback (StateSet.mk ∅ (Some VirtualProgram.new) ∅ ∅) VirtualProgram.new);
    try reflexivity.
  intros location Hin. vm_compute in Hin. inversion Hin.
Defined.

(** The engine that had no state set is left with a state set that holds
    an empty virtual program. *)
Lemma install_then_uninstall_not_restored :
  onUninstall fresh_effect fresh_store
    (onInstall fresh_effect fresh_store (Some bare_engine))
  = Some ready_engine ∧
  onUninstall fresh_effect fresh_store
    (onInstall fresh_effect fresh_store (Some bare_engine))
  ≠ Some bare_engine.
Proof.
  assert (H : onUninstall fresh_effect fresh_store
                (onInstall fresh_effect fresh_store (Some bare_engine))
              = Some ready_engine) by (vm_compute; reflexivity).
  split; [exact H |]. rewrite H. discriminate.
Qed.

(** C6: [onUninstall] takes out of the state set the effect's own
    "oe_morph_delay" and "oe_morph_duration" uniforms and, out of the
    VirtualProgram, the shader and the function entries named
    "oe_morph_vertex"; every uniform entry of another name, every entry
    that holds another uniform object, every other shader and function,
    the attributes, the modes and the engine's name are unchanged, and no
    VirtualProgram is created. *)
Theorem onUninstall_frame e h node :
  uniforms_in_sync e h →
  match TerrainEngineNode._stateset node with
  | None => onUninstall e h (Some node) = Some node
  | Some stateset =>
      ∃ stateset',
        onUninstall e h (Some node)
          = Some (TerrainEngineNode.mk (TerrainEngineNode._name node) (Some stateset')) ∧
        (∀ flags, StateSet._uniformList stateset' !! "oe_morph_delay"
                  ≠ Some (_delayUniform e, flags)) ∧
        (∀ flags, StateSet._uniformList stateset' !! "oe_morph_duration"
                  ≠ Some (_durationUniform e, flags)) ∧
        (∀ name, name ≠ "oe_morph_delay" → name ≠ "oe_morph_duration" →
           StateSet._uniformList stateset' !! name
           = StateSet._uniformList stateset !! name) ∧
        (∀ name p flags, p ≠ _delayUniform e → p ≠ _durationUniform e →
           StateSet._uniformList stateset !! name = Some (p, flags) →
           StateSet._uniformList stateset' !! name = Some (p, flags)) ∧
        StateSet._attributeList stateset' = StateSet._attributeList stateset ∧
        StateSet._modeList stateset' = StateSet._modeList stateset ∧
        match StateSet._virtualProgram stateset with
        | None => StateSet._virtualProgram stateset' = None
        | Some vp =>
            ∃ vp',
              StateSet._virtualProgram stateset' = Some vp' ∧
              VirtualProgram._shaderMap vp' !! "oe_morph_vertex" = None ∧
              (∀ id, id ≠ "oe_morph_vertex" →
                 VirtualProgram._shaderMap vp' !! id
                 = VirtualProgram._shaderMap vp !! id) ∧
              VirtualProgram._functions vp'
                = filter (λ f, f.2 ≠ "oe_morph_vertex") (VirtualProgram._functions vp) ∧
              VirtualProgram._inherit vp' = VirtualProgram._inherit vp
        end
  end.
Proof.
  intros Hs. pose proof (sync_distinct _ _ Hs) as Hne. destruct Hs as [Hd Hu].
  destruct node as [nm [stateset |]]; cbn; [| reflexivity].
  destruct (removeUniform_spec h _ _ stateset Hd)
    as (Ha1 & Ha2 & Ha3 & Ha4 & Ha5 & Ha6).
  set (ss1 := StateSet.removeUniform h (_delayUniform e) stateset) in *.
  destruct (removeUniform_spec h _ _ ss1 Hu)
    as (Hb1 & Hb2 & Hb3 & Hb4 & Hb5 & Hb6).
  set (ss2 := StateSet.removeUniform h (_durationUniform e) ss1) in *.
  cbn [getName] in *.
  assert (Hgone1 : ∀ flags, StateSet._uniformList ss2 !! "oe_morph_delay"
                            ≠ Some (_delayUniform e, flags)).
  { intros flags. rewrite Hb1 by done. apply Ha3. }
  assert (Hother : ∀ name, name ≠ "oe_morph_delay" → name ≠ "oe_morph_duration" →
            StateSet._uniformList ss2 !! name = StateSet._uniformList stateset !! name).
  { intros name H1 H2. rewrite Hb1 by done. by apply Ha1. }
  assert (Hident : ∀ name p flags, p ≠ _delayUniform e → p ≠ _durationUniform e →
            StateSet._uniformList stateset !! name = Some (p, flags) →
            StateSet._uniformList ss2 !! name = Some (p, flags)).
  { intros name p flags H1 H2 Hl.
    assert (Hl1 : StateSet._uniformList ss1 !! name = Some (p, flags)).
    { destruct (decide (name = "oe_morph_delay")) as [-> | Hn].
      - by apply Ha2.
      - by rewrite Ha1. }
    destruct (decide (name = "oe_morph_duration")) as [-> | Hn].
    - by apply Hb2.
    - by rewrite Hb1. }
  unfold VirtualProgram_get. rewrite Hb4, Ha4.
  destruct (StateSet._virtualProgram stateset) as [vp |] eqn:Hvp.
  - eexists. split; [reflexivity |]. cbn.
    split_and!; try done; try congruence.
    eexists. split; [reflexivity |]. cbn. split_and!; try done.
    + apply lookup_delete_eq.
    + intros id Hid. by rewrite lookup_delete_ne.
  - eexists. split; [reflexivity |]. cbn.
    split_and!; try done; try congruence.
Qed.

Lemma onUninstall_frame_witness :
  uniforms_in_sync fresh_effect fresh_store ∧
  ∃ stateset',
    onUninstall fresh_effect fresh_store (Some plain_engine)
      = Some (TerrainEngineNode.mk "engine" (Some stateset')) ∧
    StateSet._virtualProgram stateset' = None.
Proof.
  assert (Hs : uniforms_in_sync fresh_effect fresh_store).
  { split; vm_compute; reflexivity. }
  split; [exact Hs |].
  destruct (onUninstall_frame fresh_effect fresh_store plain_engine Hs)
    as (stateset' & Hr & _ & _ & _ & _ & _ & _ & Hvp).
  exists stateset'. split; [exact Hr | exact Hvp].
Defined.

End Lifecycle.

(** ** Runs of the host *)

Section Runs.
Import osg ElevationMorph.
Implicit Types (s : State) (c : Call) (cs : list Call).

Lemma run_cons c cs s : run (c :: cs) s = run cs (call c s).
Proof. reflexivity. Qed.

Lemma run_snoc cs c s : run (cs ++ [c]) s = call c (run cs s).
Proof. unfold run. by rewrite fold_left_app. Qed.

Lemma construct_in_sync h node :
  uniforms_in_sync (self (construct h node)) (uniforms (construct h node)).
Proof.
  unfold construct. pose proof (new_in_sync h) as Hs.
  destruct (new h) as [e h']. exact Hs.
Qed.

Lemma call_in_sync c s :
  uniforms_in_sync (self s) (uniforms s) →
  uniforms_in_sync (self (call c s)) (uniforms (call c s)).
Proof.
  intros Hs. destruct c as [f | f | |]; cbn [call]; try exact Hs.
  - pose proof (setDelay_in_sync f _ _ Hs) as H.
    destruct (setDelay f (self s) (uniforms s)). exact H.
  - pose proof (setDuration_in_sync f _ _ Hs) as H.
    destruct (setDuration f (self s) (uniforms s)). exact H.
Qed.

Lemma run_in_sync cs s :
  uniforms_in_sync (self s) (uniforms s) →
  uniforms_in_sync (self (run cs s)) (uniforms (run cs s)).
Proof.
  revert s. induction cs as [| c cs IH]; intros s Hs; [exact Hs |].
  rewrite run_cons. apply IH, call_in_sync, Hs.
Qed.

Lemma call_setter_engine c s : is_setter c = true → engine (call c s) = engine s.
Proof. destruct c; cbn; congruence. Qed.

Lemma run_setters_engine cs s :
  forallb is_setter cs = true → engine (run cs s) = engine s.
Proof.
  revert s. induction cs as [| c cs IH]; intros s Hall; [reflexivity |].
  cbn in Hall. apply andb_prop in Hall as [Hc Hcs].
  rewrite run_cons, IH by exact Hcs. by apply call_setter_engine.
Qed.

Lemma call_pointers c s :
  _delayUniform (self (call c s)) = _delayUniform (self s) ∧
  _durationUniform (self (call c s)) = _durationUniform (self s).
Proof. destruct c; cbn; done. Qed.

Lemma run_pointers cs s :
  _delayUniform (self (run cs s)) = _delayUniform (self s) ∧
  _durationUniform (self (run cs s)) = _durationUniform (self s).
Proof.
  revert s. induction cs as [| c cs IH]; intros s; [done |].
  rewrite run_cons. destruct (IH (call c s)) as [-> ->]. apply call_pointers.
Qed.

Lemma call_store_others c s p :
  p ≠ _delayUniform (self s) → p ≠ _durationUniform (self s) →
  uniforms (call c s) !! p = uniforms s !! p.
Proof.
  intros H1 H2. destruct c; cbn [call]; unfold setDelay, setDuration;
    cbn [uniforms _delayUniform _durationUniform]; try done;
    by rewrite set_lookup_ne.
Qed.

Lemma run_store_others cs s p :
  p ≠ _delayUniform (self s) → p ≠ _durationUniform (self s) →
  uniforms (run cs s) !! p = uniforms s !! p.
Proof.
  revert s. induction cs as [| c cs IH]; intros s H1 H2; [done |].
  rewrite run_cons. destruct (call_pointers c s) as [E1 E2].
  rewrite IH by congruence. by apply call_store_others.
Qed.

Lemma call_not_below c s :
  SFltb (_delay (self s)) f_0_0 = false ∧ SFltb (_duration (self s)) f_0_0 = false →
  SFltb (_delay (self (call c s))) f_0_0 = false ∧
  SFltb (_duration (self (call c s))) f_0_0 = false.
Proof.
  intros [H1 H2]. destruct c; cbn; auto using clampAbove_not_below.
Qed.

Lemma call_nonneg c s :
  passes_nan c = false →
  SFleb f_0_0 (_delay (self s)) = true ∧ SFleb f_0_0 (_duration (self s)) = true →
  SFleb f_0_0 (_delay (self (call c s))) = true ∧
  SFleb f_0_0 (_duration (self (call c s))) = true.
Proof.
  intros Hn [H1 H2]. destruct c; cbn in *; auto using clampAbove_nonneg.
Qed.

Lemma new_pointers_fresh (h : gmap ptr Uniform) :
  h !! _delayUniform (new h).1 = None ∧ h !! _durationUniform (new h).1 = None.
Proof.
  unfold new, new_Uniform. cbn [fst snd _delayUniform _durationUniform].
  set (p1 := fresh (dom h)).
  set (h1 := set p1 f_0_0 (<[p1 := _]> h)).
  set (p2 := fresh (dom h1)).
  assert (Hp1 : h !! p1 = None) by apply not_elem_of_dom, is_fresh.
  assert (Hp2 : h1 !! p2 = None) by apply not_elem_of_dom, is_fresh.
  split; [exact Hp1 |].
  destruct (h !! p2) as [u |] eqn:E; [| reflexivity].
  assert (Hne : p1 ≠ p2) by congruence.
  unfold h1 in Hp2. rewrite set_lookup_ne, lookup_insert_ne in Hp2 by done.
  congruence.
Qed.

Lemma construct_not_installed h node stateset :
  engine_known h node →
  TerrainEngineNode._stateset node = Some stateset →
  not_installed (_delayUniform (self (construct h node))) stateset ∧
  not_installed (_durationUniform (self (construct h node))) stateset.
Proof.
  intros Hk Hss. destruct (new_pointers_fresh h) as [H1 H2].
  unfold construct. destruct (new h) as [e h']. cbn in *.
  split; intros name flags Hl;
    destruct (Hk _ _ _ _ Hss Hl) as [u Hu]; congruence.
Qed.

(** C7: construction and the two setters leave the engine as it is; a
    setter writes [_delay] or [_duration] and the effect's own uniform object
    of that name, and no other object of the store, and it neither creates
    nor renames an object; a run of setter calls leaves the engine as it is.  [onInstall] and [onUninstall] are the only
    calls that act on the engine, and they change neither the effect nor
    the store of uniforms. *)
Theorem only_lifecycle_touches_host :
  (∀ h node,
     engine (construct h node) = node ∧
     ∀ p, is_Some (h !! p) → uniforms (construct h node) !! p = h !! p) ∧
  (∀ s delay,
     let s' := call (SetDelay delay) s in
     engine s' = engine s ∧
     _duration (self s') = _duration (self s) ∧
     _delayUniform (self s') = _delayUniform (self s) ∧
     _durationUniform (self s') = _durationUniform (self s) ∧
     dom (uniforms s') = dom (uniforms s) ∧
     (∀ p, getName <$> uniforms s' !! p = getName <$> uniforms s !! p) ∧
     ∀ p, p ≠ _delayUniform (self s) → uniforms s' !! p = uniforms s !! p) ∧
  (∀ s duration,
     let s' := call (SetDuration duration) s in
     engine s' = engine s ∧
     _delay (self s') = _delay (self s) ∧
     _delayUniform (self s') = _delayUniform (self s) ∧
     _durationUniform (self s') = _durationUniform (self s) ∧
     dom (uniforms s') = dom (uniforms s) ∧
     (∀ p, getName <$> uniforms s' !! p = getName <$> uniforms s !! p) ∧
     ∀ p, p ≠ _durationUniform (self s) → uniforms s' !! p = uniforms s !! p) ∧
  (∀ s cs, forallb is_setter cs = true → engine (run cs s) = engine s) ∧
  (∀ s c, is_setter c = false →
     self (call c s) = self s ∧ uniforms (call c s) = uniforms s).
Proof.
  split_and!.
  - intros h node. unfold construct.
    pose proof (new_keeps h) as Hk. destruct (new h) as [e h']. cbn in *.
    split; [reflexivity | exact Hk].
  - intros s delay. cbn [call]. unfold setDelay.
    cbn [self uniforms engine _delay _duration _delayUniform _durationUniform].
    split_and!; try reflexivity.
    + apply set_dom.
    + intros p. apply set_getName.
    + intros p Hp. by rewrite set_lookup_ne.
  - intros s duration. cbn [call]. unfold setDuration.
    cbn [self uniforms engine _delay _duration _delayUniform _durationUniform].
    split_and!; try reflexivity.
    + apply set_dom.
    + intros p. apply set_getName.
    + intros p Hp. by rewrite set_lookup_ne.
  - intros s cs. apply run_setters_engine.
  - intros s [f | f | |]; cbn; done.
Qed.

Lemma only_lifecycle_touches_host_witness :
  forallb is_setter [SetDelay f_2_0; SetDuration f_neg_1_0] = true ∧
  engine (run [SetDelay f_2_0; SetDuration f_neg_1_0] (construct ∅ ready_engine))
  = ready_engine.
Proof.
  split; [reflexivity |].
  destruct only_lifecycle_touches_host as (Hc & _ & _ & Hrun & _).
  rewrite Hrun by reflexivity. apply Hc.
Defined.

Lemma run_not_below cs s :
  SFltb (_delay (self s)) f_0_0 = false ∧ SFltb (_duration (self s)) f_0_0 = false →
  SFltb (_delay (self (run cs s))) f_0_0 = false ∧
  SFltb (_duration (self (run cs s))) f_0_0 = false.
Proof.
  revert s. induction cs as [| c cs IH]; intros s Hs; [exact Hs |].
  rewrite run_cons. apply IH, call_not_below, Hs.
Qed.

Lemma run_nonneg cs s :
  forallb (λ c, negb (passes_nan c)) cs = true →
  SFleb f_0_0 (_delay (self s)) = true ∧ SFleb f_0_0 (_duration (self s)) = true →
  SFleb f_0_0 (_delay (self (run cs s))) = true ∧
  SFleb f_0_0 (_duration (self (run cs s))) = true.
Proof.
  revert s. induction cs as [| c cs IH]; intros s Hall Hs; [exact Hs |].
  cbn in Hall. apply andb_prop in Hall as [Hc Hcs]. apply negb_true_iff in Hc.
  rewrite run_cons. apply IH; [exact Hcs |]. by apply call_nonneg.
Qed.

(** C8: the effect is constructed with [_delay = 0.0] and
    [_duration = 0.25]; after any run of calls with arbitrary [float]
    arguments the two uniforms hold the values of [_delay] and
    [_duration], and neither member is less than zero, an argument less
    than zero having been replaced by zero.  When no argument was a NaN,
    [_delay >= 0] and [_duration >= 0]. *)
Theorem members_and_uniforms h node cs :
  let s := run cs (construct h node) in
  _delay (self (construct h node)) = f_0_0 ∧
  _duration (self (construct h node)) = f_0_25 ∧
  uniforms_in_sync (self s) (uniforms s) ∧
  SFltb (_delay (self s)) f_0_0 = false ∧
  SFltb (_duration (self s)) f_0_0 = false ∧
  (∀ f, SFltb f f_0_0 = true →
     _delay (self (call (SetDelay f) s)) = f_0_0 ∧
     _duration (self (call (SetDuration f) s)) = f_0_0) ∧
  (forallb (λ c, negb (passes_nan c)) cs = true →
     SFleb f_0_0 (_delay (self s)) = true ∧
     SFleb f_0_0 (_duration (self s)) = true).
Proof.
  cbn zeta.
  assert (H0 : _delay (self (construct h node)) = f_0_0 ∧
               _duration (self (construct h node)) = f_0_25).
  { unfold construct, new, new_Uniform. cbn. done. }
  destruct H0 as [Hd0 Hu0].
  split; [exact Hd0 |]. split; [exact Hu0 |].
  split; [apply run_in_sync, construct_in_sync |].
  assert (Hlt : SFltb (_delay (self (run cs (construct h node)))) f_0_0 = false ∧
                SFltb (_duration (self (run cs (construct h node)))) f_0_0 = false).
  { apply run_not_below. by rewrite Hd0, Hu0. }
  destruct Hlt as [Hlt1 Hlt2].
  split; [exact Hlt1 |]. split; [exact Hlt2 |]. split.
  - intros f Hf. cbn. by rewrite !clampAbove_negative.
  - intros Hcs. apply run_nonneg; [exact Hcs |]. by rewrite Hd0, Hu0.
Qed.

Lemma members_and_uniforms_witness :
  SFltb f_neg_1_0 f_0_0 = true ∧
  forallb (λ c, negb (passes_nan c)) [SetDelay f_2_0; SetDuration f_neg_1_0] = true ∧
  let s := run [SetDelay f_2_0; SetDuration f_neg_1_0] (construct ∅ bare_engine) in
  _delay (self (call (SetDelay f_neg_1_0) s)) = f_0_0 ∧
  SFleb f_0_0 (_delay (self s)) = true ∧
  SFleb f_0_0 (_duration (self s)) = true.
Proof.
  split; [reflexivity |]. split; [reflexivity |].
  destruct (members_and_uniforms ∅ bare_engine
              [SetDelay f_2_0; SetDuration f_neg_1_0])
    as (_ & _ & _ & _ & _ & Hneg & Hnn).
  split; [apply (Hneg f_neg_1_0); reflexivity |].
  apply Hnn. reflexivity.
Defined.

(** [setDelay] hands a NaN on to [_delay], which is then not [>= 0]. *)
Lemma nan_delay_not_nonneg :
  is_float S754_nan = true ∧
  _delay (self (run [SetDelay S754_nan] (construct ∅ bare_engine))) = S754_nan ∧
  SFleb f_0_0 (_delay (self (run [SetDelay S754_nan] (construct ∅ bare_engine))))
  = false.
Proof. split_and!; reflexivity. Qed.

(** C9: with a null engine pointer [onInstall] and [onUninstall] do
    nothing.  [onUninstall] on an engine without a state set changes
    nothing; on an engine whose state set has no VirtualProgram and does
    not hold the effect's uniforms it changes nothing either, and such is
    the case of an effect that has never been installed: after any run of
    setter calls, [onUninstall] leaves such an engine as it was.  Each
    pointer the two functions dereference is under its guard. *)
Theorem null_engine_and_no_install :
  (∀ e h, onInstall e h None = None ∧ onUninstall e h None = None) ∧
  (∀ e h node,
     TerrainEngineNode._stateset node = None →
     onUninstall e h (Some node) = Some node) ∧
  (∀ e h node stateset,
     TerrainEngineNode._stateset node = Some stateset →
     StateSet._virtualProgram stateset = None →
     not_installed (_delayUniform e) stateset →
     not_installed (_durationUniform e) stateset →
     onUninstall e h (Some node) = Some node) ∧
  (∀ h node cs,
     engine_known h node →
     forallb is_setter cs = true →
     (TerrainEngineNode._stateset node = None ∨
      ∃ stateset, TerrainEngineNode._stateset node = Some stateset ∧
                  StateSet._virtualProgram stateset = None) →
     engine (call OnUninstall (run cs (construct h node))) = node).
Proof.
  assert (Hbare : ∀ e h node, TerrainEngineNode._stateset node = None →
                    onUninstall e h (Some node) = Some node).
  { intros e h [nm ss] Hss. cbn in Hss. subst ss. reflexivity. }
  assert (Hnovp : ∀ e h node stateset,
            TerrainEngineNode._stateset node = Some stateset →
            StateSet._virtualProgram stateset = None →
            not_installed (_delayUniform e) stateset →
            not_installed (_durationUniform e) stateset →
            onUninstall e h (Some node) = Some node).
  { intros e h [nm ss] stateset Hss Hvp H1 H2. cbn in Hss. subst ss.
    unfold onUninstall. cbn [TerrainEngineNode.getStateSet TerrainEngineNode._stateset].
    rewrite (removeUniform_other h (_delayUniform e) stateset) by done.
    rewrite removeUniform_other by done.
    unfold VirtualProgram_get. rewrite Hvp. reflexivity. }
  split_and!; [done | exact Hbare | exact Hnovp |].
  intros h node cs Hk Hcs Hcase.
  pose proof (run_setters_engine cs (construct h node) Hcs) as He.
  assert (Hn : engine (construct h node) = node).
  { unfold construct. by destruct (new h). }
  cbn [call engine]. rewrite He, Hn.
  destruct (run_pointers cs (construct h node)) as [E1 E2].
  destruct Hcase as [Hss | (stateset & Hss & Hvp)].
  - by rewrite Hbare.
  - destruct (construct_not_installed h node stateset Hk Hss) as [N1 N2].
    rewrite (Hnovp _ _ node stateset); [done | done | done | |].
    + by rewrite E1.
    + by rewrite E2.
Qed.

Lemma null_engine_and_no_install_witness :
  engine_known ∅ plain_engine ∧
  forallb is_setter [SetDelay f_2_0; SetDuration f_neg_1_0] = true ∧
  engine (call OnUninstall
            (run [SetDelay f_2_0; SetDuration f_neg_1_0] (construct ∅ plain_engine)))
  = plain_engine.
Proof.
  assert (Hk : engine_known ∅ plain_engine).
  { intros stateset name p flags [= <-] Hl. vm_compute in Hl. discriminate Hl. }
  split; [exact Hk |]. split; [reflexivity |].
  destruct null_engine_and_no_install as (_ & _ & _ & Hrun).
  apply Hrun; [exact Hk | reflexivity |].
  right. exists StateSet.new. split; reflexivity.
Defined.

End Runs.

(** ** GLSL built-in functions *)

Section Builtins.
Import GLSL.
Local Open Scope R_scope.

Lemma max_Rmax a b : max a b = Rmax a b.
Proof.
  unfold max, Rmax. destruct (Rlt_dec a b), (Rle_dec a b); lra.
Qed.

Lemma min_Rmin a b : min a b = Rmin a b.
Proof.
  unfold min, Rmin. destruct (Rlt_dec b a), (Rle_dec a b); lra.
Qed.

Lemma div_Some a b : b ≠ 0 → div a b = Some (a / b).
Proof. intros Hb. unfold div. by destruct (Req_dec_T b 0). Qed.

Lemma div_zero a : div a 0 = None.
Proof. unfold div. by destruct (Req_dec_T 0 0). Qed.

Lemma div_inv a b q : div a b = Some q → b ≠ 0 ∧ q = a / b.
Proof.
  unfold div. destruct (Req_dec_T b 0); [discriminate |].
  intros [= <-]. done.
Qed.

Lemma vec3_div_Some v s :
  s ≠ 0 → vec3_div v s = Some (mkvec3 (x3 v / s) (y3 v / s) (z3 v / s)).
Proof. intros Hs. unfold vec3_div. by destruct (Req_dec_T s 0). Qed.

Lemma vec3_div_zero v : vec3_div v 0 = None.
Proof. unfold vec3_div. by destruct (Req_dec_T 0 0). Qed.

Lemma vec3_div_inv v s p : vec3_div v s = Some p → s ≠ 0.
Proof. unfold vec3_div. by destruct (Req_dec_T s 0). Qed.

Lemma clamp_Some v lo hi : lo <= hi → clamp v lo hi = Some (Rmin (Rmax v lo) hi).
Proof.
  intros Hle. unfold clamp. destruct (Rlt_dec hi lo); [lra |].
  by rewrite max_Rmax, min_Rmin.
Qed.

Lemma clamp_inv v lo hi c :
  clamp v lo hi = Some c → lo <= hi ∧ c = Rmin (Rmax v lo) hi.
Proof.
  unfold clamp. destruct (Rlt_dec hi lo); [discriminate |].
  intros [= <-]. rewrite max_Rmax, min_Rmin. split; [lra | reflexivity].
Qed.

Lemma clamp_undefined v lo hi : hi < lo → clamp v lo hi = None.
Proof. intros Hlt. unfold clamp. by destruct (Rlt_dec hi lo). Qed.

Lemma clamped_between v lo hi : lo <= hi → lo <= Rmin (Rmax v lo) hi <= hi.
Proof.
  intros Hle. unfold Rmin, Rmax.
  destruct (Rle_dec v lo); destruct (Rle_dec _ hi); lra.
Qed.

Lemma clamped_monotone v1 v2 lo hi :
  v1 <= v2 → Rmin (Rmax v1 lo) hi <= Rmin (Rmax v2 lo) hi.
Proof.
  intros Hle. unfold Rmin, Rmax.
  destruct (Rle_dec v1 lo); destruct (Rle_dec v2 lo);
    repeat match goal with |- context [Rle_dec ?a ?b] => destruct (Rle_dec a b) end;
    lra.
Qed.

Lemma clamped_low v lo hi : lo <= hi → v <= lo → Rmin (Rmax v lo) hi = lo.
Proof.
  intros H1 H2. unfold Rmin, Rmax.
  destruct (Rle_dec v lo); destruct (Rle_dec _ hi); lra.
Qed.

Lemma clamped_high v lo hi : lo <= hi → hi <= v → Rmin (Rmax v lo) hi = hi.
Proof.
  intros H1 H2. unfold Rmin, Rmax.
  destruct (Rle_dec v lo); destruct (Rle_dec _ hi); lra.
Qed.

Lemma clamped_inside v lo hi : lo <= v <= hi → Rmin (Rmax v lo) hi = v.
Proof.
  intros H. unfold Rmin, Rmax.
  destruct (Rle_dec v lo); destruct (Rle_dec _ hi); lra.
Qed.

Lemma length_nonneg v : 0 <= length v.
Proof. apply sqrt_pos. Qed.

Lemma length_ahead c : 0 <= c → length (mkvec3 0 0 (- c)) = c.
Proof.
  intros Hc. unfold length. cbn.
  replace (0 * 0 + 0 * 0 + - c * - c) with (c * c) by ring.
  by apply sqrt_square.
Qed.

Lemma mat4_mul_identity v : mat4_mul identity v = v.
Proof. destruct v. unfold mat4_mul, dot4, identity. cbn. f_equal; ring. Qed.

Lemma mix_between a b t :
  0 <= t <= 1 → Rmin a b <= mix a b t <= Rmax a b.
Proof.
  intros Ht. unfold mix, Rmin, Rmax. destruct (Rle_dec a b); nra.
Qed.

Lemma mix_0 a b : mix a b 0 = a.
Proof. unfold mix. ring. Qed.

Lemma mix_1 a b : mix a b 1 = b.
Proof. unfold mix. ring. Qed.

End Builtins.

(** ** The morph ratio *)

Section Ratio.
Import GLSL ElevationMorph.
Local Open Scope R_scope.
Implicit Types (u : Uniforms) (attr : Attributes) (mv : mat4) (V : vec4).

Lemma near_far u : far u - near u = far u * 0.15.
Proof. unfold near. lra. Qed.

(** The distance [d] is the length of a vector less the radius. *)
Lemma d_inv u mv V d1 :
  d u mv V = Some d1 → w (VertexVIEW mv V) ≠ 0 ∧ - radius u <= d1.
Proof.
  unfold d. destruct (vec3_div _ _) as [p |] eqn:E; [| discriminate].
  cbn. intros [= <-]. split; [by eapply vec3_div_inv |].
  pose proof (length_nonneg p). lra.
Qed.

Lemma d_defined u mv V :
  w (VertexVIEW mv V) ≠ 0 → ∃ d1, d u mv V = Some d1.
Proof. intros Hw. unfold d. rewrite vec3_div_Some by done. cbn. eauto. Qed.

(** The distance term, where it is defined. *)
Lemma r_dist_inv u mv V rd :
  r_dist u mv V = Some rd →
  ∃ d1, d u mv V = Some d1 ∧ 0 < far u ∧ radius u ≠ 0 ∧
        rd = (Rmin (Rmax (d1 / radius u) (near u)) (far u) - near u)
             / (far u - near u).
Proof.
  unfold r_dist, a.
  destruct (d u mv V) as [d1 |] eqn:Hd; [| discriminate]. cbn.
  destruct (div d1 (radius u)) as [q |] eqn:Hq; [| discriminate]. cbn.
  destruct (clamp q (near u) (far u)) as [c |] eqn:Hc; [| discriminate]. cbn.
  intros Hr.
  apply div_inv in Hq as [Hrad ->]. apply clamp_inv in Hc as [Hnf ->].
  apply div_inv in Hr as [Hfn ->].
  exists d1. split_and!; try done.
  rewrite near_far in Hfn. unfold near in Hnf. lra.
Qed.

Lemma r_dist_defined u mv V d1 :
  d u mv V = Some d1 → 0 < far u → radius u ≠ 0 →
  r_dist u mv V
  = Some ((Rmin (Rmax (d1 / radius u) (near u)) (far u) - near u)
          / (far u - near u)).
Proof.
  intros Hd Hfar Hrad. unfold r_dist, a. rewrite Hd. cbn.
  rewrite div_Some by done. cbn.
  rewrite clamp_Some by (unfold near; lra). cbn.
  apply div_Some. rewrite near_far. lra.
Qed.

(** The distance term is defined exactly for a positive range factor, a
    non-zero radius and a non-zero [VertexVIEW.w]. *)
Lemma r_dist_defined_iff u mv V :
  is_Some (r_dist u mv V) ↔
  0 < far u ∧ radius u ≠ 0 ∧ w (VertexVIEW mv V) ≠ 0.
Proof.
  split.
  - intros [rd Hr]. apply r_dist_inv in Hr as (d1 & Hd & Hfar & Hrad & _).
    apply d_inv in Hd as [Hw _]. done.
  - intros (Hfar & Hrad & Hw). destruct (d_defined u mv V Hw) as [d1 Hd].
    rewrite (r_dist_defined u mv V d1) by done. eauto.
Qed.

Lemma r_dist_flat u mv V : far u = 0 → r_dist u mv V = None.
Proof.
  intros Hfar. destruct (r_dist u mv V) as [rd |] eqn:E; [| reflexivity].
  apply r_dist_inv in E as (_ & _ & Hpos & _). lra.
Qed.

Lemma r_dist_bounds u mv V rd : r_dist u mv V = Some rd → 0 <= rd <= 1.
Proof.
  intros Hr. apply r_dist_inv in Hr as (d1 & Hd & Hfar & Hrad & ->).
  assert (Hnf : near u <= far u) by (unfold near; lra).
  pose proof (clamped_between (d1 / radius u) _ _ Hnf) as [Hlo Hhi].
  assert (Hpos : 0 < far u - near u) by (rewrite near_far; lra).
  split.
  - apply Rmult_le_pos; [lra |]. left. by apply Rinv_0_lt_compat.
  - apply Rmult_le_reg_r with (far u - near u); [done |].
    unfold Rdiv. rewrite Rmult_assoc, Rinv_l by lra. lra.
Qed.

(** The distance term does not decrease with the distance. *)
Lemma r_dist_monotone u mv1 V1 mv2 V2 d1 d2 rd1 rd2 :
  d u mv1 V1 = Some d1 → d u mv2 V2 = Some d2 → d1 <= d2 →
  r_dist u mv1 V1 = Some rd1 → r_dist u mv2 V2 = Some rd2 →
  rd1 <= rd2.
Proof.
  intros Hd1 Hd2 Hle Hr1 Hr2.
  apply r_dist_inv in Hr1 as (d1' & Hd1' & Hfar & Hrad & ->).
  apply r_dist_inv in Hr2 as (d2' & Hd2' & _ & _ & ->).
  assert (d1' = d1) as -> by congruence.
  assert (d2' = d2) as -> by congruence.
  assert (Hnf : near u <= far u) by (unfold near; lra).
  assert (Hpos : 0 < far u - near u) by (rewrite near_far; lra).
  apply d_inv in Hd1 as [_ Hb1]. apply d_inv in Hd2 as [_ Hb2].
  apply Rmult_le_compat_r; [left; by apply Rinv_0_lt_compat |].
  apply Rplus_le_compat_r.
  destruct (Rlt_le_dec 0 (radius u)) as [Hr | Hr].
  - apply clamped_monotone. apply Rmult_le_compat_r; [| done].
    left. by apply Rinv_0_lt_compat.
  - assert (Hneg : radius u < 0) by lra.
    assert (Hq : ∀ x, - radius u <= x → x / radius u <= near u).
    { intros x Hx. unfold near.
      assert (x / radius u <= 0); [| lra].
      unfold Rdiv. assert (/ radius u < 0) by by apply Rinv_lt_0_compat.
      nra. }
    rewrite !clamped_low by auto. lra.
Qed.

Lemma r_time_inv u rt :
  r_time u = Some rt →
  0 < oe_morph_duration u ∧
  rt = 1 - Rmin (Rmax (elapsed u) 0) (oe_morph_duration u) / oe_morph_duration u.
Proof.
  unfold r_time. fold (elapsed u).
  destruct (clamp _ _ _) as [c |] eqn:Hc; [| discriminate]. cbn.
  destruct (div c _) as [q |] eqn:Hq; [| discriminate]. cbn.
  intros [= <-]. apply clamp_inv in Hc as [Hle ->].
  apply div_inv in Hq as [Hne ->]. split; [lra | reflexivity].
Qed.

Lemma r_time_defined u :
  0 < oe_morph_duration u →
  r_time u
  = Some (1 - Rmin (Rmax (elapsed u) 0) (oe_morph_duration u) / oe_morph_duration u).
Proof.
  intros Hdur. unfold r_time. fold (elapsed u).
  rewrite clamp_Some by lra. cbn. rewrite div_Some by lra. reflexivity.
Qed.

Lemma r_time_undefined u : oe_morph_duration u = 0 → r_time u = None.
Proof.
  intros Hz. destruct (r_time u) as [rt |] eqn:E; [| reflexivity].
  apply r_time_inv in E as [Hpos _]. lra.
Qed.

Lemma r_time_bounds u rt : r_time u = Some rt → 0 <= rt <= 1.
Proof.
  intros Hr. apply r_time_inv in Hr as [Hdur ->].
  assert (Hle : 0 <= oe_morph_duration u) by lra.
  pose proof (clamped_between (elapsed u) _ _ Hle) as [Hlo Hhi].
  set (c := Rmin _ _) in *.
  assert (0 <= c / oe_morph_duration u <= 1); [| lra].
  split.
  - apply Rmult_le_pos; [done |]. left. by apply Rinv_0_lt_compat.
  - apply Rmult_le_reg_r with (oe_morph_duration u); [done |].
    unfold Rdiv. rewrite Rmult_assoc, Rinv_l by lra. lra.
Qed.

(** The time term does not increase with the frame time. *)
Lemma r_time_antitone u t1 t2 rt1 rt2 :
  t1 <= t2 →
  r_time (at_time u t1) = Some rt1 → r_time (at_time u t2) = Some rt2 →
  rt2 <= rt1.
Proof.
  intros Hle H1 H2.
  apply r_time_inv in H1 as [Hdur ->]. apply r_time_inv in H2 as [_ ->].
  cbn [at_time oe_morph_duration] in *.
  assert (He : elapsed (at_time u t1) <= elapsed (at_time u t2)).
  { unfold elapsed. cbn. lra. }
  pose proof (clamped_monotone _ _ 0 (oe_morph_duration u) He) as Hm.
  assert (Hi : 0 < / oe_morph_duration u) by by apply Rinv_0_lt_compat.
  unfold Rdiv. nra.
Qed.

Lemma r_inv u mv V rr :
  r u mv V = Some rr →
  ∃ rd rt, r_dist u mv V = Some rd ∧ r_time u = Some rt ∧ rr = Rmax rd rt.
Proof.
  unfold r. destruct (r_dist u mv V) as [rd |]; [| discriminate]. cbn.
  destruct (r_time u) as [rt |]; [| discriminate]. cbn.
  intros [= <-]. exists rd, rt. by rewrite max_Rmax.
Qed.

Lemma r_defined u mv V rd rt :
  r_dist u mv V = Some rd → r_time u = Some rt → r u mv V = Some (Rmax rd rt).
Proof. intros Hd Ht. unfold r. rewrite Hd, Ht. cbn. by rewrite max_Rmax. Qed.

Lemma at_time_r_dist u t mv V : r_dist (at_time u t) mv V = r_dist u mv V.
Proof. reflexivity. Qed.

Lemma offset_scale attr rr :
  offset attr rr = vec3_scale (upVector attr) (rr * (elevOld attr - elev attr)).
Proof. unfold offset, vec3_scale. cbn. f_equal; ring. Qed.

(** *** Evaluation at a point in front of the camera *)

Lemma d_ahead u c : 0 <= c → d u identity (ahead c) = Some (c - radius u).
Proof.
  intros Hc. unfold d, VertexVIEW. rewrite mat4_mul_identity.
  unfold ahead. rewrite vec3_div_Some by (cbn; lra). cbn.
  replace (0 / 1) with 0 by lra. replace (- c / 1) with (- c) by lra.
  by rewrite length_ahead.
Qed.

Lemma r_time_tile : r_time tile_uniforms = Some 0.
Proof.
  rewrite r_time_defined by (cbn; lra). f_equal.
  unfold elapsed. cbn. rewrite clamped_high by lra. lra.
Qed.

Lemma r_dist_tile c :
  0 <= c →
  r_dist tile_uniforms identity (ahead c)
  = Some ((Rmin (Rmax (c - 1) 5.1) 6 - 5.1) / 0.9).
Proof.
  intros Hc. rewrite (r_dist_defined _ _ _ (c - 1)).
  - f_equal. unfold near, far, radius. cbn.
    replace ((c - 1) / 1) with (c - 1) by lra.
    replace (6 * 0.85) with 5.1 by lra. f_equal. lra.
  - by rewrite d_ahead.
  - unfold far. cbn. lra.
  - unfold radius. cbn. lra.
Qed.

Example r_tile_near : r tile_uniforms identity (ahead 3) = Some 0.
Proof.
  rewrite (r_defined _ _ _ 0 0).
  - f_equal. unfold Rmax. destruct (Rle_dec 0 0); lra.
  - rewrite r_dist_tile by lra. f_equal.
    rewrite clamped_low by lra. lra.
  - apply r_time_tile.
Qed.

Example r_tile_far : r tile_uniforms identity (ahead 10) = Some 1.
Proof.
  rewrite (r_defined _ _ _ 1 0).
  - f_equal. unfold Rmax. destruct (Rle_dec 1 0); lra.
  - rewrite r_dist_tile by lra. f_equal.
    rewrite clamped_high by lra. lra.
  - apply r_time_tile.
Qed.

Example r_tile_between : r tile_uniforms identity (ahead 6.5) = Some (4 / 9).
Proof.
  rewrite (r_defined _ _ _ (4 / 9) 0).
  - f_equal. unfold Rmax. destruct (Rle_dec (4 / 9) 0); lra.
  - rewrite r_dist_tile by lra. f_equal.
    rewrite clamped_inside by lra. lra.
  - apply r_time_tile.
Qed.

End Ratio.

(** ** The morphed vertex *)

Section Morph.
Import GLSL ElevationMorph.
Local Open Scope R_scope.
Implicit Types (u : Uniforms) (attr : Attributes) (mv : mat4) (V : vec4).

(** C4: wherever the distance term and the time term have values, the morph
    ratio is their maximum.  For a positive range factor and duration and a
    non-zero radius it is the maximum of
    [(clamp(d/radius, near, far) - near) / (far - near)], a function of the
    distance [d], and of [1 - clamp(t, 0, duration) / duration], a function
    of the time [t] elapsed since the tile's birth time plus the delay.  Both
    drive it: on the ramp between [near] and [far] a larger distance gives a
    strictly larger ratio where the time term is below the distance term, and
    during the morph a later frame time gives a strictly smaller ratio where
    the distance term is below the time term. *)
Theorem ratio_is_max u mv V :
  (∀ rd rt, r_dist u mv V = Some rd → r_time u = Some rt →
     r u mv V = Some (Rmax rd rt)) ∧
  (∀ d1,
     0 < far u → radius u ≠ 0 → 0 < oe_morph_duration u → d u mv V = Some d1 →
     r u mv V
     = Some (Rmax
         ((Rmin (Rmax (d1 / radius u) (near u)) (far u) - near u) / (far u - near u))
         (1 - Rmin (Rmax (elapsed u) 0) (oe_morph_duration u) / oe_morph_duration u))) ∧
  (∀ mv2 V2 d1 d2 rt rd2 r1 r2,
     0 < radius u → d u mv V = Some d1 → d u mv2 V2 = Some d2 →
     near u <= d1 / radius u → d1 < d2 → d2 / radius u <= far u →
     r_time u = Some rt → r_dist u mv2 V2 = Some rd2 → rt < rd2 →
     r u mv V = Some r1 → r u mv2 V2 = Some r2 →
     r1 < r2) ∧
  (∀ t1 t2 rd rt1 r1 r2,
     0 <= elapsed (at_time u t1) → t1 < t2 →
     elapsed (at_time u t2) <= oe_morph_duration u →
     r_dist u mv V = Some rd → r_time (at_time u t1) = Some rt1 → rd < rt1 →
     r (at_time u t1) mv V = Some r1 → r (at_time u t2) mv V = Some r2 →
     r2 < r1).
Proof.
  split_and!.
  - intros rd rt Hd Ht. by apply r_defined.
  - intros d1 Hfar Hrad Hdur Hd.
    apply r_defined; [by apply r_dist_defined | by apply r_time_defined].
  - intros mv2 V2 d1 d2 rt rd2 r1 r2 Hrad Hd1 Hd2 Hlo Hlt Hhi Ht Hrd2 Hdom Hr1 Hr2.
    apply r_inv in Hr1 as (rd1 & rt' & Hrd1 & Ht' & ->).
    apply r_inv in Hr2 as (rd2' & rt'' & Hrd2' & Ht'' & ->).
    assert (rt' = rt) as -> by congruence.
    assert (rt'' = rt) as -> by congruence.
    assert (rd2' = rd2) as -> by congruence.
    apply r_dist_inv in Hrd1 as (d1' & Hd1' & Hfar & _ & Erd1).
    apply r_dist_inv in Hrd2 as (d2' & Hd2' & _ & _ & Erd2).
    assert (d1' = d1) as -> by congruence.
    assert (d2' = d2) as -> by congruence.
    assert (Hi : 0 < / radius u) by by apply Rinv_0_lt_compat.
    assert (Hq : d1 / radius u < d2 / radius u).
    { unfold Rdiv. by apply Rmult_lt_compat_r. }
    rewrite clamped_inside in Erd1 by lra.
    rewrite clamped_inside in Erd2 by lra.
    assert (Hpos : 0 < / (far u - near u)).
    { apply Rinv_0_lt_compat. rewrite near_far. lra. }
    assert (Hrd : rd1 < rd2).
    { subst rd1 rd2. unfold Rdiv. apply Rmult_lt_compat_r; [done | lra]. }
    unfold Rmax. destruct (Rle_dec rd1 rt), (Rle_dec rd2 rt); lra.
  - intros t1 t2 rd rt1 r1 r2 He1 Hlt He2 Hrd Hrt1 Hdom Hr1 Hr2.
    apply r_inv in Hr1 as (rd' & rt1' & Hrd' & Hrt1' & ->).
    apply r_inv in Hr2 as (rd'' & rt2 & Hrd'' & Hrt2 & ->).
    rewrite at_time_r_dist in Hrd', Hrd''.
    assert (rd' = rd) as -> by congruence.
    assert (rd'' = rd) as -> by congruence.
    assert (rt1' = rt1) as -> by congruence.
    apply r_time_inv in Hrt1 as [Hdur E1]. apply r_time_inv in Hrt2 as [_ E2].
    cbn [at_time oe_morph_duration] in *.
    assert (He : elapsed (at_time u t1) < elapsed (at_time u t2)).
    { unfold elapsed. cbn. lra. }
    rewrite clamped_inside in E1 by lra.
    rewrite clamped_inside in E2 by lra.
    assert (Hi : 0 < / oe_morph_duration u) by by apply Rinv_0_lt_compat.
    assert (Hrt : rt2 < rt1).
    { subst rt1 rt2. unfold Rdiv.
      assert (elapsed (at_time u t1) * / oe_morph_duration u
              < elapsed (at_time u t2) * / oe_morph_duration u)
        by by apply Rmult_lt_compat_r.
      lra. }
    unfold Rmax. destruct (Rle_dec rd rt1), (Rle_dec rd rt2); lra.
Qed.

Lemma ratio_is_max_witness :
  (r_dist tile_uniforms identity (ahead 6.5) = Some (4 / 9) ∧
   r_time tile_uniforms = Some 0 ∧
   r tile_uniforms identity (ahead 6.5) = Some (Rmax (4 / 9) 0)) ∧
  (r_dist midway_uniforms identity (ahead 6.5) = Some (4 / 9) ∧
   r_time midway_uniforms = Some (1 / 2) ∧
   r midway_uniforms identity (ahead 6.5) = Some (Rmax (4 / 9) (1 / 2))) ∧
  (0 < radius tile_uniforms ∧
   d tile_uniforms identity (ahead 6.2) = Some 5.2 ∧
   d tile_uniforms identity (ahead 6.5) = Some 5.5 ∧
   near tile_uniforms <= 5.2 / radius tile_uniforms ∧
   5.2 < 5.5 ∧
   5.5 / radius tile_uniforms <= far tile_uniforms ∧
   0 < 4 / 9 ∧
   r tile_uniforms identity (ahead 6.2) = Some (1 / 9) ∧
   r tile_uniforms identity (ahead 6.5) = Some (4 / 9) ∧
   1 / 9 < 4 / 9) ∧
  (0 <= elapsed (at_time tile_uniforms (1 / 16)) ∧
   1 / 16 < 1 / 8 ∧
   elapsed (at_time tile_uniforms (1 / 8)) <= oe_morph_duration tile_uniforms ∧
   r_dist tile_uniforms identity (ahead 3) = Some 0 ∧
   r_time (at_time tile_uniforms (1 / 16)) = Some (3 / 4) ∧
   0 < 3 / 4 ∧
   r (at_time tile_uniforms (1 / 16)) identity (ahead 3) = Some (3 / 4) ∧
   r (at_time tile_uniforms (1 / 8)) identity (ahead 3) = Some (1 / 2) ∧
   1 / 2 < 3 / 4).
Proof.
  assert (Hd65 : r_dist tile_uniforms identity (ahead 6.5) = Some (4 / 9)).
  { rewrite r_dist_tile by lra. f_equal. rewrite clamped_inside by lra. lra. }
  assert (Hd62 : r_dist tile_uniforms identity (ahead 6.2) = Some (1 / 9)).
  { rewrite r_dist_tile by lra. f_equal. rewrite clamped_inside by lra. lra. }
  assert (Htm : r_time midway_uniforms = Some (1 / 2)).
  { rewrite r_time_defined by (cbn; lra). f_equal.
    unfold elapsed. cbn. rewrite clamped_inside by lra. lra. }
  assert (Hr62 : r tile_uniforms identity (ahead 6.2) = Some (1 / 9)).
  { rewrite (r_defined _ _ _ (1 / 9) 0 Hd62 r_time_tile). f_equal.
    unfold Rmax. destruct (Rle_dec (1 / 9) 0); lra. }
  assert (H62 : d tile_uniforms identity (ahead 6.2) = Some 5.2).
  { rewrite d_ahead by lra. f_equal. unfold radius. cbn. lra. }
  assert (H65 : d tile_uniforms identity (ahead 6.5) = Some 5.5).
  { rewrite d_ahead by lra. f_equal. unfold radius. cbn. lra. }
  assert (Hrad : 0 < radius tile_uniforms) by (unfold radius; cbn; lra).
  assert (Hlo : near tile_uniforms <= 5.2 / radius tile_uniforms).
  { unfold near, far, radius. cbn. lra. }
  assert (Hhi : 5.5 / radius tile_uniforms <= far tile_uniforms).
  { unfold far, radius. cbn. lra. }
  assert (Hlt : 5.2 < 5.5) by lra.
  assert (Hdom : 0 < 4 / 9) by lra.
  assert (Hd3 : r_dist tile_uniforms identity (ahead 3) = Some 0).
  { rewrite r_dist_tile by lra. f_equal. rewrite clamped_low by lra. lra. }
  assert (He1 : 0 <= elapsed (at_time tile_uniforms (1 / 16))).
  { unfold elapsed. cbn. lra. }
  assert (He2 : elapsed (at_time tile_uniforms (1 / 8))
                <= oe_morph_duration tile_uniforms).
  { unfold elapsed. cbn. lra. }
  assert (Ht1 : r_time (at_time tile_uniforms (1 / 16)) = Some (3 / 4)).
  { rewrite r_time_defined by (cbn; lra). f_equal.
    unfold elapsed. cbn. rewrite clamped_inside by lra. lra. }
  assert (Ht2 : r_time (at_time tile_uniforms (1 / 8)) = Some (1 / 2)).
  { rewrite r_time_defined by (cbn; lra). f_equal.
    unfold elapsed. cbn. rewrite clamped_inside by lra. lra. }
  assert (Hr1 : r (at_time tile_uniforms (1 / 16)) identity (ahead 3) = Some (3 / 4)).
  { rewrite (r_defined (at_time tile_uniforms (1 / 16)) identity (ahead 3)
               0 (3 / 4) Hd3 Ht1). f_equal.
    unfold Rmax. destruct (Rle_dec 0 (3 / 4)); lra. }
  assert (Hr2 : r (at_time tile_uniforms (1 / 8)) identity (ahead 3) = Some (1 / 2)).
  { rewrite (r_defined (at_time tile_uniforms (1 / 8)) identity (ahead 3)
               0 (1 / 2) Hd3 Ht2). f_equal.
    unfold Rmax. destruct (Rle_dec 0 (1 / 2)); lra. }
  assert (Hlt2 : 1 / 16 < 1 / 8) by lra.
  assert (Hdom2 : 0 < 3 / 4) by lra.
  split; [| split; [| split]].
  - split; [exact Hd65 |]. split; [exact r_time_tile |].
    exact (proj1 (ratio_is_max tile_uniforms identity (ahead 6.5))
             _ _ Hd65 r_time_tile).
  - split; [exact Hd65 |]. split; [exact Htm |].
    exact (proj1 (ratio_is_max midway_uniforms identity (ahead 6.5))
             _ _ Hd65 Htm).
  - repeat (split; [assumption || exact r_tile_between |]).
    destruct (ratio_is_max tile_uniforms identity (ahead 6.2)) as (_ & _ & Hdist & _).
    exact (Hdist identity (ahead 6.5) 5.2 5.5 0 (4 / 9) (1 / 9) (4 / 9)
             Hrad H62 H65 Hlo Hlt Hhi r_time_tile Hd65 Hdom Hr62 r_tile_between).
  - repeat (split; [assumption |]).
    destruct (ratio_is_max tile_uniforms identity (ahead 3)) as (_ & _ & _ & Htime).
    exact (Htime (1 / 16) (1 / 8) 0 (3 / 4) (3 / 4) (1 / 2)
             He1 Hlt2 He2 Hd3 Ht1 Hdom2 Hr1 Hr2).
Defined.

(** C5: with the uniforms fixed, a vertex at a larger distance [d] has a
    morph ratio that is not smaller; with everything but the frame time
    fixed and a positive duration, a later frame time gives a morph ratio
    that is not larger; in both cases the ratio has a value at the second
    point when it has one at the first. *)
Theorem ratio_monotone :
  (∀ u mv1 V1 mv2 V2 d1 d2 r1,
     d u mv1 V1 = Some d1 → d u mv2 V2 = Some d2 → d1 <= d2 →
     r u mv1 V1 = Some r1 →
     ∃ r2, r u mv2 V2 = Some r2 ∧ r1 <= r2) ∧
  (∀ u mv V t1 t2 r1,
     0 < oe_morph_duration u → t1 <= t2 →
     r (at_time u t1) mv V = Some r1 →
     ∃ r2, r (at_time u t2) mv V = Some r2 ∧ r2 <= r1).
Proof.
  split.
  - intros u mv1 V1 mv2 V2 d1 d2 r1 Hd1 Hd2 Hle Hr1.
    apply r_inv in Hr1 as (rd1 & rt & Hrd1 & Hrt & ->).
    pose proof Hrd1 as Hrd1'.
    apply r_dist_inv in Hrd1' as (_ & _ & Hfar & Hrad & _).
    pose proof (r_dist_defined u mv2 V2 d2 Hd2 Hfar Hrad) as Hrd2.
    eexists. split; [by apply r_defined |].
    apply Rle_max_compat_r.
    by eapply (r_dist_monotone u mv1 V1 mv2 V2).
  - intros u mv V t1 t2 r1 Hdur Hle Hr1.
    apply r_inv in Hr1 as (rd & rt1 & Hrd & Hrt1 & ->).
    rewrite at_time_r_dist in Hrd.
    pose proof (r_time_defined (at_time u t2) Hdur) as Hrt2.
    eexists. split; [apply r_defined; [by rewrite at_time_r_dist | exact Hrt2] |].
    apply Rle_max_compat_l.
    by eapply (r_time_antitone u t1 t2).
Qed.

Lemma ratio_monotone_witness :
  d tile_uniforms identity (ahead 3) = Some 2 ∧
  d tile_uniforms identity (ahead 6.5) = Some 5.5 ∧
  2 <= 5.5 ∧
  r tile_uniforms identity (ahead 3) = Some 0 ∧
  (∃ r2, r tile_uniforms identity (ahead 6.5) = Some r2 ∧ 0 <= r2) ∧
  0 < oe_morph_duration tile_uniforms ∧
  10 <= 11 ∧
  r (at_time tile_uniforms 10) identity (ahead 3) = Some 0 ∧
  (∃ r2, r (at_time tile_uniforms 11) identity (ahead 3) = Some r2 ∧ r2 <= 0).
Proof.
  assert (H1 : d tile_uniforms identity (ahead 3) = Some 2).
  { rewrite d_ahead by lra. f_equal. unfold radius. cbn. lra. }
  assert (H2 : d tile_uniforms identity (ahead 6.5) = Some 5.5).
  { rewrite d_ahead by lra. f_equal. unfold radius. cbn. lra. }
  assert (H3 : 2 <= 5.5) by lra.
  assert (H4 : 0 < oe_morph_duration tile_uniforms) by (cbn; lra).
  assert (H5 : 10 <= 11) by lra.
  destruct ratio_monotone as [Hdist Htime].
  split_and!; [exact H1 | exact H2 | exact H3 | exact r_tile_near | |
               exact H4 | exact H5 | exact r_tile_near |].
  - exact (Hdist tile_uniforms identity (ahead 3) identity (ahead 6.5)
             2 5.5 0 H1 H2 H3 r_tile_near).
  - exact (Htime tile_uniforms identity (ahead 3) 10 11 0 H4 H5 r_tile_near).
Defined.

(** C3: for every input vertex, [oe_morph_vertex] displaces [VertexMODEL]
    by [upVector * r * (elevOld - elev) / w], with [r] the morph ratio, and
    leaves its [w]; the displacement along [upVector] is the linear blend
    of the new elevation and the old one at [r], less the new elevation.
    At [r = 0] the vertex is unchanged, so it carries the new elevation; at
    [r = 1] it is displaced by [upVector * (elevOld - elev) / w], so it
    carries the old one. *)
Theorem morph_is_interpolation u attr mv V :
  oe_morph_vertex u attr mv V
  = (rr ← r u mv V;
     o ← vec3_div (vec3_scale (upVector attr) (rr * (elevOld attr - elev attr))) (w V);
     Some (vec4_add V (vec4_of o 0))) ∧
  (∀ rr, r u mv V = Some rr → w V ≠ 0 →
     oe_morph_vertex u attr mv V
     = Some (mkvec4
         (x V + x3 (upVector attr) * (mix (elev attr) (elevOld attr) rr - elev attr) / w V)
         (y V + y3 (upVector attr) * (mix (elev attr) (elevOld attr) rr - elev attr) / w V)
         (z V + z3 (upVector attr) * (mix (elev attr) (elevOld attr) rr - elev attr) / w V)
         (w V))) ∧
  (r u mv V = Some 0 → w V ≠ 0 → oe_morph_vertex u attr mv V = Some V) ∧
  (r u mv V = Some 1 → w V ≠ 0 →
     oe_morph_vertex u attr mv V
     = Some (mkvec4
         (x V + x3 (upVector attr) * (elevOld attr - elev attr) / w V)
         (y V + y3 (upVector attr) * (elevOld attr - elev attr) / w V)
         (z V + z3 (upVector attr) * (elevOld attr - elev attr) / w V)
         (w V))).
Proof.
  assert (Hgen : ∀ rr, r u mv V = Some rr → w V ≠ 0 →
     oe_morph_vertex u attr mv V
     = Some (mkvec4
         (x V + x3 (upVector attr) * (mix (elev attr) (elevOld attr) rr - elev attr) / w V)
         (y V + y3 (upVector attr) * (mix (elev attr) (elevOld attr) rr - elev attr) / w V)
         (z V + z3 (upVector attr) * (mix (elev attr) (elevOld attr) rr - elev attr) / w V)
         (w V))).
  { intros rr Hr Hw. unfold oe_morph_vertex. rewrite Hr. cbn.
    rewrite vec3_div_Some by done. cbn. f_equal.
    unfold vec4_add, mix. cbn. f_equal; field; done. }
  split_and!.
  - unfold oe_morph_vertex. destruct (r u mv V) as [rr |]; [| reflexivity].
    cbn. by rewrite offset_scale.
  - exact Hgen.
  - intros Hr Hw. rewrite (Hgen 0 Hr Hw). destruct V as [vx vy vz vw].
    cbn in *. rewrite mix_0. f_equal. f_equal; field; done.
  - intros Hr Hw. rewrite (Hgen 1 Hr Hw). rewrite mix_1. reflexivity.
Qed.

Lemma morph_is_interpolation_witness :
  r tile_uniforms identity (ahead 3) = Some 0 ∧
  w (ahead 3) ≠ 0 ∧
  oe_morph_vertex tile_uniforms tile_attributes identity (ahead 3) = Some (ahead 3) ∧
  r tile_uniforms identity (ahead 10) = Some 1 ∧
  w (ahead 10) ≠ 0 ∧
  oe_morph_vertex tile_uniforms tile_attributes identity (ahead 10)
  = Some (mkvec4 0 0 (- 10 + 1 * (3 - 5) / 1) 1).
Proof.
  assert (Hw3 : w (ahead 3) ≠ 0) by (cbn; lra).
  assert (Hw10 : w (ahead 10) ≠ 0) by (cbn; lra).
  split_and!; [exact r_tile_near | exact Hw3 | | exact r_tile_far | exact Hw10 |].
  - destruct (morph_is_interpolation tile_uniforms tile_attributes identity (ahead 3))
      as (_ & _ & H0 & _).
    exact (H0 r_tile_near Hw3).
  - destruct (morph_is_interpolation tile_uniforms tile_attributes identity (ahead 10))
      as (_ & _ & _ & H1).
    rewrite (H1 r_tile_far Hw10). cbn. f_equal. f_equal; lra.
Defined.

End Morph.

(** ** Bounds of the morph ratio *)

Section Bounds.
Import GLSL osg ElevationMorph.
Local Open Scope R_scope.
Implicit Types (u : Uniforms) (attr : Attributes) (mv : mat4) (V : vec4).

(** C10: under [oe_morph_duration > 0] the time term has a value, which
    lies in [0, 1]; wherever the distance term has a value it lies in [0, 1]
    too, and then the morph ratio lies in [0, 1] and the vertex returned
    lies between the input vertex (the new elevation) and the vertex
    displaced by [upVector * (elevOld - elev) / w] (the old elevation); for
    [VertexMODEL.w = 1] it is the input vertex moved along [upVector] by the
    blend of the two elevations less the new one, and the blend lies between
    the two.  The distance term has a value when the range factor is positive
    and the radius and [VertexVIEW.w] are non-zero.  The setters do not
    enforce the precondition: [setDuration(0)] stores 0 in [_duration] and in
    the uniform, and under a duration of 0 the time term divides by zero. *)
Theorem ratio_bounds :
  (∀ u attr mv V,
     0 < oe_morph_duration u →
     (∃ rt, r_time u = Some rt ∧ 0 <= rt <= 1) ∧
     (∀ rd, r_dist u mv V = Some rd →
        0 <= rd <= 1 ∧
        ∃ rr, r u mv V = Some rr ∧ 0 <= rr <= 1 ∧
          (w V ≠ 0 →
           ∃ V', oe_morph_vertex u attr mv V = Some V' ∧
             x V' = mix (x V)
                      (x V + x3 (upVector attr) * (elevOld attr - elev attr) / w V) rr ∧
             y V' = mix (y V)
                      (y V + y3 (upVector attr) * (elevOld attr - elev attr) / w V) rr ∧
             z V' = mix (z V)
                      (z V + z3 (upVector attr) * (elevOld attr - elev attr) / w V) rr ∧
             w V' = w V) ∧
          (w V = 1 →
           ∃ V', oe_morph_vertex u attr mv V = Some V' ∧
             x V' = x V + x3 (upVector attr)
                          * (mix (elev attr) (elevOld attr) rr - elev attr) ∧
             y V' = y V + y3 (upVector attr)
                          * (mix (elev attr) (elevOld attr) rr - elev attr) ∧
             z V' = z V + z3 (upVector attr)
                          * (mix (elev attr) (elevOld attr) rr - elev attr) ∧
             w V' = 1 ∧
             Rmin (elev attr) (elevOld attr)
               <= mix (elev attr) (elevOld attr) rr
               <= Rmax (elev attr) (elevOld attr))) ∧
     (0 < far u → radius u ≠ 0 → w (VertexVIEW mv V) ≠ 0 →
      ∃ rd, r_dist u mv V = Some rd)) ∧
  (∀ e h,
     let e' := (setDuration f_0_0 e h).1 in
     let h' := (setDuration f_0_0 e h).2 in
     _duration e' = f_0_0 ∧
     SFleb f_0_0 (_duration e') = true ∧
     float_to_R (_duration e') = Some 0 ∧
     (uniforms_in_sync e h →
      h' !! _durationUniform e' = Some (mkUniform FLOAT "oe_morph_duration" f_0_0))) ∧
  (∀ u, oe_morph_duration u = 0 → r_time u = None).
Proof.
  split_and!.
  - intros u attr mv V Hdur.
    pose proof (r_time_defined u Hdur) as Ht.
    pose proof (r_time_bounds u _ Ht) as Htb.
    set (rt := 1 - _ / _) in *.
    split; [eauto |]. split.
    + intros rd Hd. pose proof (r_dist_bounds u mv V rd Hd) as Hdb.
      split; [exact Hdb |].
      assert (Hrb : 0 <= Rmax rd rt <= 1).
      { unfold Rmax. destruct (Rle_dec rd rt); lra. }
      pose proof (r_defined u mv V rd rt Hd Ht) as Hr.
      exists (Rmax rd rt). split; [exact Hr |]. split; [exact Hrb |]. split.
      * intros Hw. eexists. split.
        -- unfold oe_morph_vertex. rewrite Hr. cbn.
           rewrite vec3_div_Some by done. reflexivity.
        -- unfold mix, vec4_add. cbn. split_and!; field; done.
      * intros Hw. eexists. split.
        -- unfold oe_morph_vertex. rewrite Hr. cbn.
           rewrite vec3_div_Some by (rewrite Hw; lra). reflexivity.
        -- unfold vec4_add. cbn. rewrite Hw.
           split_and!; try (unfold mix; field); try lra;
             apply mix_between, Hrb.
    + intros Hfar Hrad Hw.
      assert (Hs : is_Some (r_dist u mv V)) by by apply r_dist_defined_iff.
      destruct Hs as [rd Hd]. eauto.
  - intros e h. cbn. split_and!; try reflexivity.
    intros Hs. pose proof (setDuration_in_sync f_0_0 e h Hs) as [_ H2]. exact H2.
  - intros u Hz. by apply r_time_undefined.
Qed.

Lemma ratio_bounds_witness :
  0 < oe_morph_duration tile_uniforms ∧
  r_dist tile_uniforms identity (ahead 6.5) = Some (4 / 9) ∧
  w (ahead 6.5) = 1 ∧
  0 < far tile_uniforms ∧
  radius tile_uniforms ≠ 0 ∧
  w (VertexVIEW identity (ahead 6.5)) ≠ 0 ∧
  (∃ rr V', r tile_uniforms identity (ahead 6.5) = Some rr ∧ 0 <= rr <= 1 ∧
     oe_morph_vertex tile_uniforms tile_attributes identity (ahead 6.5) = Some V' ∧
     Rmin (elev tile_attributes) (elevOld tile_attributes)
       <= mix (elev tile_attributes) (elevOld tile_attributes) rr
       <= Rmax (elev tile_attributes) (elevOld tile_attributes)) ∧
  (∃ rd, r_dist tile_uniforms identity (ahead 6.5) = Some rd) ∧
  oe_morph_duration (with_duration tile_uniforms 0) = 0 ∧
  r_time (with_duration tile_uniforms 0) = None.
Proof.
  assert (H1 : 0 < oe_morph_duration tile_uniforms) by (cbn; lra).
  assert (Hd : r_dist tile_uniforms identity (ahead 6.5) = Some (4 / 9)).
  { rewrite r_dist_tile by lra. f_equal. rewrite clamped_inside by lra. lra. }
  assert (Hw : w (ahead 6.5) = 1) by reflexivity.
  assert (H2 : 0 < far tile_uniforms) by (unfold far; cbn; lra).
  assert (H3 : radius tile_uniforms ≠ 0) by (unfold radius; cbn; lra).
  assert (H4 : w (VertexVIEW identity (ahead 6.5)) ≠ 0).
  { unfold VertexVIEW. rewrite mat4_mul_identity. cbn. lra. }
  destruct ratio_bounds as (Hpos & _ & Hzero).
  destruct (Hpos tile_uniforms tile_attributes identity (ahead 6.5) H1)
    as (_ & Hb & Hdef).
  repeat (split; [assumption |]).
  split; [| split; [exact (Hdef H2 H3 H4) | split; [reflexivity |]]].
  - destruct (Hb _ Hd) as (_ & rr & Hr & Hrb & _ & Hone).
    destruct (Hone Hw) as (V' & HV & _ & _ & _ & _ & Hmix).
    exists rr, V'. split; [exact Hr |]. split; [exact Hrb |].
    split; [exact HV | exact Hmix].
  - apply (Hzero (with_duration tile_uniforms 0)). reflexivity.
Defined.

(** With a positive duration and the range factor 0 the distance term has
    no value. *)
Lemma distance_term_undefined :
  0 < oe_morph_duration flat_uniforms ∧
  r_dist flat_uniforms identity (ahead 3) = None ∧
  ¬ (∃ rd, r_dist flat_uniforms identity (ahead 3) = Some rd ∧ 0 <= rd <= 1).
Proof.
  assert (H : r_dist flat_uniforms identity (ahead 3) = None).
  { apply r_dist_flat. reflexivity. }
  split_and!; [cbn; lra | exact H |].
  intros (rd & Hrd & _). congruence.
Qed.

(** With [VertexMODEL.w = 1/2] and the morph ratio 1, the point the
    returned vertex stands for has moved four times the difference of the
    two elevations along the up vector: a vertex with [w] other than 1 does
    go past its old elevation. *)
Example half_w_overshoots :
  r tile_uniforms identity ahead_half = Some 1 ∧
  oe_morph_vertex tile_uniforms tile_attributes identity ahead_half
  = Some (mkvec4 0 0 (- 9) (1 / 2)) ∧
  position ahead_half = Some (mkvec3 0 0 (- 10)) ∧
  position (mkvec4 0 0 (- 9) (1 / 2)) = Some (mkvec3 0 0 (- 18)) ∧
  elevOld tile_attributes - elev tile_attributes = - 2 ∧
  - 18 - - 10 = 4 * (elevOld tile_attributes - elev tile_attributes).
Proof.
  assert (Hd : d tile_uniforms identity ahead_half = Some 9).
  { unfold d, VertexVIEW. rewrite mat4_mul_identity. unfold ahead_half.
    rewrite vec3_div_Some by (cbn; lra). cbn.
    replace (0 / (1 / 2)) with 0 by lra.
    replace (- 5 / (1 / 2)) with (Ropp 10) by lra.
    rewrite length_ahead by lra. f_equal. unfold radius. cbn. lra. }
  assert (Hrd : r_dist tile_uniforms identity ahead_half = Some 1).
  { rewrite (r_dist_defined _ _ _ 9 Hd) by (unfold far, radius; cbn; lra).
    f_equal. unfold near, far, radius. cbn.
    replace (9 / 1) with 9 by lra.
    rewrite clamped_high by lra. lra. }
  assert (Hr : r tile_uniforms identity ahead_half = Some 1).
  { rewrite (r_defined _ _ _ 1 0 Hrd r_time_tile). f_equal.
    unfold Rmax. destruct (Rle_dec 1 0); lra. }
  split_and!.
  - exact Hr.
  - unfold oe_morph_vertex. rewrite Hr. cbn.
    rewrite vec3_div_Some by (cbn; lra). cbn. f_equal. unfold vec4_add. cbn.
    f_equal; lra.
  - unfold position, ahead_half. rewrite vec3_div_Some by (cbn; lra). cbn.
    f_equal. f_equal; lra.
  - unfold position. rewrite vec3_div_Some by (cbn; lra). cbn.
    f_equal. f_equal; lra.
  - unfold elevOld, elev. cbn. lra.
  - unfold elevOld, elev. cbn. lra.
Qed.

End Bounds.

(** ** Composition of the setters *)

Section Setters.
Import osg ElevationMorph.
Implicit Types (s : State) (c : Call) (cs : list Call).

Lemma set_value_twice f1 f2 u : set_value f2 (set_value f1 u) = set_value f2 u.
Proof. destruct u as [[] n v]; reflexivity. Qed.

Lemma set_twice p f1 f2 (h : gmap ptr Uniform) : set p f2 (set p f1 h) = set p f2 h.
Proof.
  apply map_eq. intros q. unfold set. destruct (decide (q = p)) as [-> | Hne].
  - rewrite !lookup_alter_eq. destruct (h !! p) as [u |]; [| reflexivity].
    cbn. by rewrite set_value_twice.
  - by rewrite !lookup_alter_ne.
Qed.

Lemma set_commute p1 p2 f1 f2 (h : gmap ptr Uniform) :
  p1 ≠ p2 → set p1 f1 (set p2 f2 h) = set p2 f2 (set p1 f1 h).
Proof.
  intros Hne. apply map_eq. intros q. unfold set.
  destruct (decide (q = p1)) as [E1 | H1]; destruct (decide (q = p2)) as [E2 | H2];
    subst; try done.
  - rewrite lookup_alter_eq, !lookup_alter_ne, lookup_alter_eq by done. done.
  - rewrite lookup_alter_ne, !lookup_alter_eq, lookup_alter_ne by done. done.
  - by rewrite !lookup_alter_ne.
Qed.

(** X1: of two calls of the same setter the later one wins, so a repeated
    call changes nothing; for an effect whose uniforms are its own two
    objects, [setDelay] and [setDuration] commute. *)
Theorem setters_compose s f1 f2 :
  call (SetDelay f2) (call (SetDelay f1) s) = call (SetDelay f2) s ∧
  call (SetDuration f2) (call (SetDuration f1) s) = call (SetDuration f2) s ∧
  (uniforms_in_sync (self s) (uniforms s) →
   call (SetDelay f1) (call (SetDuration f2) s)
   = call (SetDuration f2) (call (SetDelay f1) s)).
Proof.
  destruct s as [[dl du p1 p2] h node]. unfold call, setDelay, setDuration.
  cbn [self uniforms engine _delay _duration _delayUniform _durationUniform].
  split_and!.
  - by rewrite set_twice.
  - by rewrite set_twice.
  - intros Hs. apply sync_distinct in Hs. cbn in Hs.
    by rewrite set_commute.
Qed.

Lemma setters_compose_witness :
  uniforms_in_sync fresh_effect fresh_store ∧
  call (SetDelay f_2_0) (call (SetDuration f_neg_1_0) (construct ∅ bare_engine))
  = call (SetDuration f_neg_1_0) (call (SetDelay f_2_0) (construct ∅ bare_engine)).
Proof.
  assert (Hs : uniforms_in_sync fresh_effect fresh_store).
  { split; vm_compute; reflexivity. }
  split; [exact Hs |].
  destruct (setters_compose (construct ∅ bare_engine) f_2_0 f_neg_1_0)
    as (_ & _ & Hc).
  apply Hc. exact Hs.
Defined.

(** The store after a run of calls has the same objects under the same
    names. *)
Lemma call_names c s p :
  getName <$> uniforms (call c s) !! p = getName <$> uniforms s !! p.
Proof.
  destruct c; cbn [call]; unfold setDelay, setDuration; cbn [uniforms]; try done;
    apply set_getName.
Qed.

Lemma run_names cs s p :
  getName <$> uniforms (run cs s) !! p = getName <$> uniforms s !! p.
Proof.
  revert s. induction cs as [| c cs IH]; intros s; [done |].
  rewrite run_cons, IH. apply call_names.
Qed.

End Setters.

(** ** Installing next to the setters *)

Section Sharing.
Import osg ShaderComp ElevationMorph.
Implicit Types (h : gmap ptr Uniform) (e : ElevationMorph.t).
Implicit Types (stateset : StateSet.t) (vp : VirtualProgram.t).
Implicit Types (s : State) (c : Call) (cs : list Call).

(** [addUniform] and [removeUniform] read the name of the uniform and
    nothing else of the store. *)
Lemma addUniform_names h h' p stateset :
  getName <$> h' !! p = getName <$> h !! p →
  StateSet.addUniform h' p stateset = StateSet.addUniform h p stateset.
Proof.
  unfold StateSet.addUniform. intros Hn.
  destruct (h' !! p) as [u' |], (h !! p) as [u |]; cbn in Hn; try done.
  by injection Hn as ->.
Qed.

Lemma removeUniform_names h h' p stateset :
  getName <$> h' !! p = getName <$> h !! p →
  StateSet.removeUniform h' p stateset = StateSet.removeUniform h p stateset.
Proof.
  unfold StateSet.removeUniform. intros Hn.
  destruct (h' !! p) as [u' |], (h !! p) as [u |]; cbn in Hn; try done.
  by injection Hn as ->.
Qed.

Lemma onInstall_names e h h' engine :
  (∀ p, getName <$> h' !! p = getName <$> h !! p) →
  onInstall e h' engine = onInstall e h engine.
Proof.
  intros Hn. unfold onInstall. destruct engine as [node |]; [| done].
  by rewrite !(addUniform_names h h').
Qed.

Lemma onUninstall_names e h h' engine :
  (∀ p, getName <$> h' !! p = getName <$> h !! p) →
  onUninstall e h' engine = onUninstall e h engine.
Proof.
  intros Hn. unfold onUninstall. destruct engine as [node |]; [| done].
  destruct (TerrainEngineNode.getStateSet node) as [stateset |]; [| done].
  by rewrite !(removeUniform_names h h').
Qed.

Lemma onInstall_pointers e e' h engine :
  _delayUniform e' = _delayUniform e → _durationUniform e' = _durationUniform e →
  onInstall e' h engine = onInstall e h engine.
Proof. intros H1 H2. unfold onInstall. by rewrite H1, H2. Qed.

Lemma onUninstall_pointers e e' h engine :
  _delayUniform e' = _delayUniform e → _durationUniform e' = _durationUniform e →
  onUninstall e' h engine = onUninstall e h engine.
Proof. intros H1 H2. unfold onUninstall. by rewrite H1, H2. Qed.

(** X2: a setter call and [onInstall], or [onUninstall], can be made in
    either order: the state after the two calls is the same. *)
Theorem setters_commute_with_lifecycle s c :
  is_setter c = true →
  call OnInstall (call c s) = call c (call OnInstall s) ∧
  call OnUninstall (call c s) = call c (call OnUninstall s).
Proof.
  intros Hc. destruct s as [e h node].
  assert (Hn : ∀ p0 f p, getName <$> set p0 f h !! p = getName <$> h !! p).
  { intros p0 f p. apply set_getName. }
  destruct c as [f | f | |]; try discriminate;
    unfold call, setDelay, setDuration;
    cbn [self uniforms engine _delay _duration _delayUniform _durationUniform];
    split; f_equal; f_equal.
  - by rewrite (onInstall_names _ h (set _ _ h)).
  - by rewrite (onUninstall_names _ h (set _ _ h)).
  - by rewrite (onInstall_names _ h (set _ _ h)).
  - by rewrite (onUninstall_names _ h (set _ _ h)).
Qed.

Lemma setters_commute_with_lifecycle_witness :
  is_setter (SetDuration f_2_0) = true ∧
  call OnInstall (call (SetDuration f_2_0) (construct ∅ bare_engine))
  = call (SetDuration f_2_0) (call OnInstall (construct ∅ bare_engine)).
Proof.
  split; [reflexivity |].
  apply (setters_commute_with_lifecycle (construct ∅ bare_engine) (SetDuration f_2_0)).
  reflexivity.
Defined.

Lemma install_entries e h node :
  uniforms_in_sync e h →
  ∃ stateset,
    onInstall e h (Some node)
      = Some (TerrainEngineNode.mk (TerrainEngineNode._name node) (Some stateset)) ∧
    StateSet._uniformList stateset !! "oe_morph_delay" = Some (_delayUniform e, 0%N) ∧
    StateSet._uniformList stateset !! "oe_morph_duration"
      = Some (_durationUniform e, 0%N).
Proof.
  intros Hs.
  destruct (onInstall_installs_aux e h node Hs) as (ss & vp & Hi & _ & Hul & _).
  exists ss. rewrite Hul. split_and!; [exact Hi | |].
  - rewrite lookup_insert_ne by done. apply lookup_insert_eq.
  - apply lookup_insert_eq.
Qed.

(** X3: once the effect is installed, the values the renderer reads for
    "oe_morph_delay" and "oe_morph_duration" are the effect's [_delay] and
    [_duration] after every later setter call: the state set shares the
    effect's uniform objects, and nothing has to be installed again. *)
Theorem installed_uniforms_follow_setters s cs :
  uniforms_in_sync (self s) (uniforms s) →
  forallb is_setter cs = true →
  let s' := run cs (call OnInstall s) in
  ∃ stateset,
    TerrainEngineNode._stateset (engine s') = Some stateset ∧
    seen_value (uniforms s') stateset "oe_morph_delay" = Some (_delay (self s')) ∧
    seen_value (uniforms s') stateset "oe_morph_duration" = Some (_duration (self s')).
Proof.
  intros Hs Hcs. cbn zeta.
  destruct (install_entries (self s) (uniforms s) (engine s) Hs)
    as (stateset & Hi & Hd & Hu).
  set (s1 := call OnInstall s).
  assert (He1 : engine s1 = TerrainEngineNode.mk
                  (TerrainEngineNode._name (engine s)) (Some stateset)).
  { unfold s1. cbn [call engine]. by rewrite Hi. }
  assert (Hs1 : uniforms_in_sync (self s1) (uniforms s1)) by exact Hs.
  pose proof (run_in_sync cs s1 Hs1) as [Sd Su].
  destruct (run_pointers cs s1) as [P1 P2].
  rewrite (run_setters_engine cs s1 Hcs), He1.
  exists stateset. split; [reflexivity |].
  unfold seen_value. rewrite Hd, Hu. cbn [mbind option_bind fst].
  change (_delayUniform (self s)) with (_delayUniform (self s1)).
  change (_durationUniform (self s)) with (_durationUniform (self s1)).
  rewrite <- P1, <- P2, Sd, Su. done.
Qed.

Lemma installed_uniforms_follow_setters_witness :
  uniforms_in_sync (self (construct ∅ bare_engine)) (uniforms (construct ∅ bare_engine)) ∧
  forallb is_setter [SetDelay f_2_0; SetDuration f_neg_1_0] = true ∧
  ∃ stateset,
    TerrainEngineNode._stateset
      (engine (run [SetDelay f_2_0; SetDuration f_neg_1_0]
                 (call OnInstall (construct ∅ bare_engine)))) = Some stateset ∧
    seen_value
      (uniforms (run [SetDelay f_2_0; SetDuration f_neg_1_0]
                   (call OnInstall (construct ∅ bare_engine))))
      stateset "oe_morph_delay" = Some f_2_0.
Proof.
  assert (Hs : uniforms_in_sync (self (construct ∅ bare_engine))
                 (uniforms (construct ∅ bare_engine))).
  { split; vm_compute; reflexivity. }
  split; [exact Hs |]. split; [reflexivity |].
  destruct (installed_uniforms_follow_setters (construct ∅ bare_engine)
              [SetDelay f_2_0; SetDuration f_neg_1_0] Hs eq_refl)
    as (stateset & He & Hd & _).
  exists stateset. split; [exact He |]. rewrite Hd. reflexivity.
Defined.

(** X4: setter calls between [onInstall] and [onUninstall] do not change
    what [onUninstall] leaves: the engine is the one that [onInstall]
    followed at once by [onUninstall] gives. *)
Theorem uninstall_after_setters s cs :
  forallb is_setter cs = true →
  engine (run (OnInstall :: cs ++ [OnUninstall]) s)
  = engine (run [OnInstall; OnUninstall] s).
Proof.
  intros Hcs. rewrite !run_cons, run_snoc.
  set (s1 := call OnInstall s).
  change (run [] (call OnUninstall s1)) with (call OnUninstall s1).
  cbn [call engine].
  destruct (run_pointers cs s1) as [P1 P2].
  rewrite (run_setters_engine cs s1 Hcs).
  rewrite (onUninstall_names _ (uniforms s1) (uniforms (run cs s1)))
    by (intros p; apply run_names).
  by rewrite (onUninstall_pointers (self s1) (self (run cs s1))).
Qed.

Lemma uninstall_after_setters_witness :
  forallb is_setter [SetDelay f_2_0; SetDuration f_neg_1_0] = true ∧
  engine (run (OnInstall :: [SetDelay f_2_0; SetDuration f_neg_1_0] ++ [OnUninstall])
            (construct ∅ ready_engine))
  = engine (run [OnInstall; OnUninstall] (construct ∅ ready_engine)).
Proof.
  split; [reflexivity |].
  apply (uninstall_after_setters (construct ∅ ready_engine)
           [SetDelay f_2_0; SetDuration f_neg_1_0]).
  reflexivity.
Defined.

End Sharing.

(** ** Repeated calls and two effects *)

Section Repeats.
Import osg ShaderComp ElevationMorph.
Implicit Types (h : gmap ptr Uniform) (e : ElevationMorph.t).
Implicit Types (stateset : StateSet.t) (vp : VirtualProgram.t).

Lemma filter_twice {A} (P : A → Prop) `{∀ x, Decision (P x)} (l : list A) :
  filter P (filter P l) = filter P l.
Proof.
  induction l as [| x l IH]; [reflexivity |].
  rewrite filter_cons. destruct (decide (P x)) as [Hx | Hx]; [| exact IH].
  rewrite filter_cons, decide_True by done. by rewrite IH.
Qed.

Lemma removeShader_twice name vp :
  VirtualProgram.removeShader name (VirtualProgram.removeShader name vp)
  = VirtualProgram.removeShader name vp.
Proof.
  unfold VirtualProgram.removeShader. cbn. f_equal.
  - apply map_eq. intros k. destruct (decide (k = name)) as [-> | Hne].
    + by rewrite !lookup_delete_eq.
    + by rewrite !lookup_delete_ne.
  - apply filter_twice.
Qed.

Lemma insert_pair_twice {A} (m : gmap string A) n1 n2 v1 v2 :
  <[n2 := v2]> (<[n1 := v1]> (<[n2 := v2]> (<[n1 := v1]> m)))
  = <[n2 := v2]> (<[n1 := v1]> m).
Proof.
  apply map_eq. intros k.
  destruct (decide (k = n2)) as [-> | H2].
  - by rewrite !lookup_insert_eq.
  - rewrite !(lookup_insert_ne _ n2) by done.
    destruct (decide (k = n1)) as [-> | H1].
    + by rewrite !lookup_insert_eq.
    + by rewrite !lookup_insert_ne by done.
Qed.

Lemma addUniform_pair_twice h p1 p2 stateset vp' :
  StateSet.addUniform h p2 (StateSet.addUniform h p1
    (StateSet.storeVirtualProgram
       (StateSet.addUniform h p2 (StateSet.addUniform h p1 stateset)) vp'))
  = StateSet.storeVirtualProgram
      (StateSet.addUniform h p2 (StateSet.addUniform h p1 stateset)) vp'.
Proof.
  destruct stateset as [ul ovp al ml]. unfold StateSet.addUniform.
  destruct (h !! p1) as [u1 |], (h !! p2) as [u2 |];
    unfold StateSet.storeVirtualProgram; cbn; f_equal;
    first [apply insert_pair_twice | apply insert_insert_eq | reflexivity].
Qed.

(** X5: a second [onInstall] leaves the uniforms, the attributes and the
    modes of the state set as the first call left them: the two uniforms
    are entered once, under their names. *)
Theorem onInstall_twice e h node :
  ∃ stateset stateset2,
    onInstall e h (Some node)
      = Some (TerrainEngineNode.mk (TerrainEngineNode._name node) (Some stateset)) ∧
    onInstall e h (onInstall e h (Some node))
      = Some (TerrainEngineNode.mk (TerrainEngineNode._name node) (Some stateset2)) ∧
    StateSet._uniformList stateset2 = StateSet._uniformList stateset ∧
    StateSet._attributeList stateset2 = StateSet._attributeList stateset ∧
    StateSet._modeList stateset2 = StateSet._modeList stateset.
Proof.
  pose (ss2 := StateSet.addUniform h (_durationUniform e)
                 (StateSet.addUniform h (_delayUniform e)
                    (TerrainEngineNode.getOrCreateStateSet node))).
  pose (vp1 := VirtualProgram.setFunction "oe_morph_vertex" vs LOCATION_VERTEX_MODEL
                 (VirtualProgram_getOrCreate ss2)).
  assert (H1 : onInstall e h (Some node)
               = Some (TerrainEngineNode.storeStateSet node
                         (StateSet.storeVirtualProgram ss2 vp1))) by reflexivity.
  eexists _, _. split; [exact H1 |]. split.
  - rewrite H1. unfold onInstall.
    cbn [TerrainEngineNode.getOrCreateStateSet TerrainEngineNode.storeStateSet
         TerrainEngineNode._stateset TerrainEngineNode._name].
    unfold ss2. rewrite addUniform_pair_twice. fold ss2. reflexivity.
  - cbn. done.
Qed.

Lemma removeUniform_fields h p stateset :
  StateSet._virtualProgram (StateSet.removeUniform h p stateset)
    = StateSet._virtualProgram stateset ∧
  StateSet._attributeList (StateSet.removeUniform h p stateset)
    = StateSet._attributeList stateset ∧
  StateSet._modeList (StateSet.removeUniform h p stateset)
    = StateSet._modeList stateset.
Proof.
  unfold StateSet.removeUniform. destruct (h !! p) as [u |]; [| done].
  destruct (StateSet._uniformList stateset !! getName u) as [[q fl] |]; [| done].
  by destruct (decide (q = p)).
Qed.

(** The entries [removeUniform] leaves: all but the one that holds the
    uniform itself under the uniform's name. *)
Lemma removeUniform_lookup h p stateset k :
  StateSet._uniformList (StateSet.removeUniform h p stateset) !! k
  = match StateSet._uniformList stateset !! k with
    | Some (q, fl) =>
        if decide (q = p ∧ getName <$> h !! p = Some k) then None else Some (q, fl)
    | None => None
    end.
Proof.
  unfold StateSet.removeUniform. destruct (h !! p) as [u |] eqn:Hp; cbn.
  - destruct (StateSet._uniformList stateset !! getName u) as [[q fl] |] eqn:Hl.
    + destruct (decide (q = p)) as [-> | Hne]; cbn.
      * destruct (decide (k = getName u)) as [-> | Hk].
        -- rewrite lookup_delete_eq, Hl. by rewrite decide_True.
        -- rewrite lookup_delete_ne by done.
           destruct (StateSet._uniformList stateset !! k) as [[q' fl'] |]; [| done].
           rewrite decide_False; [done |]. intros [_ [= E]]. by apply Hk.
      * destruct (StateSet._uniformList stateset !! k) as [[q' fl'] |] eqn:Hk; [| done].
        rewrite decide_False; [done |]. intros [-> [= E]]. subst k. congruence.
    + destruct (StateSet._uniformList stateset !! k) as [[q' fl'] |] eqn:Hk; [| done].
      rewrite decide_False; [done |]. intros [-> [= E]]. subst k. congruence.
  - destruct (StateSet._uniformList stateset !! k) as [[q' fl'] |]; [| done].
    rewrite decide_False; [done |]. by intros [_ ?].
Qed.

Lemma stateset_eq stateset stateset' :
  StateSet._uniformList stateset = StateSet._uniformList stateset' →
  StateSet._virtualProgram stateset = StateSet._virtualProgram stateset' →
  StateSet._attributeList stateset = StateSet._attributeList stateset' →
  StateSet._modeList stateset = StateSet._modeList stateset' →
  stateset = stateset'.
Proof. destruct stateset, stateset'. cbn. by intros -> -> -> ->. Qed.

Lemma removeUniform_store h p stateset vp' :
  StateSet.removeUniform h p (StateSet.storeVirtualProgram stateset vp')
  = StateSet.storeVirtualProgram (StateSet.removeUniform h p stateset) vp'.
Proof.
  unfold StateSet.removeUniform. destruct (h !! p) as [u |]; [| done]. cbn.
  destruct (StateSet._uniformList stateset !! getName u) as [[q fl] |]; [| done].
  by destruct (decide (q = p)).
Qed.

Lemma removeUniform_pair_twice h p1 p2 stateset :
  StateSet.removeUniform h p2 (StateSet.removeUniform h p1
    (StateSet.removeUniform h p2 (StateSet.removeUniform h p1 stateset)))
  = StateSet.removeUniform h p2 (StateSet.removeUniform h p1 stateset).
Proof.
  apply stateset_eq.
  - apply map_eq. intros k. rewrite !removeUniform_lookup.
    destruct (StateSet._uniformList stateset !! k) as [[q fl] |]; [| done].
    repeat (case_decide; try done).
  - by rewrite !(proj1 (removeUniform_fields _ _ _)).
  - by rewrite !(proj1 (proj2 (removeUniform_fields _ _ _))).
  - by rewrite !(proj2 (proj2 (removeUniform_fields _ _ _))).
Qed.

(** X6: [onUninstall] twice is [onUninstall] once: a second call on the
    engine the first one left, null or not, changes nothing. *)
Theorem onUninstall_twice e h engine :
  onUninstall e h (onUninstall e h engine) = onUninstall e h engine.
Proof.
  destruct engine as [[nm [stateset |]] |]; [| reflexivity | reflexivity].
  set (node := TerrainEngineNode.mk nm (Some stateset)).
  pose (ss2 := StateSet.removeUniform h (_durationUniform e)
                 (StateSet.removeUniform h (_delayUniform e) stateset)).
  destruct (StateSet._virtualProgram ss2) as [vp |] eqn:Hvp.
  - assert (H1 : onUninstall e h (Some node)
                 = Some (TerrainEngineNode.storeStateSet node
                           (StateSet.storeVirtualProgram ss2
                              (VirtualProgram.removeShader "oe_morph_vertex" vp)))).
    { unfold onUninstall, node, VirtualProgram_get.
      cbn [TerrainEngineNode.getStateSet TerrainEngineNode._stateset].
      fold ss2. by rewrite Hvp. }
    rewrite H1. unfold onUninstall, VirtualProgram_get.
    cbn [TerrainEngineNode.getStateSet TerrainEngineNode.storeStateSet
         TerrainEngineNode._stateset TerrainEngineNode._name].
    rewrite !removeUniform_store. unfold ss2.
    rewrite removeUniform_pair_twice. fold ss2.
    cbn [StateSet.storeVirtualProgram StateSet._virtualProgram
         StateSet._uniformList StateSet._attributeList StateSet._modeList].
    by rewrite removeShader_twice.
  - assert (H1 : onUninstall e h (Some node)
                 = Some (TerrainEngineNode.storeStateSet node ss2)).
    { unfold onUninstall, node, VirtualProgram_get.
      cbn [TerrainEngineNode.getStateSet TerrainEngineNode._stateset].
      fold ss2. by rewrite Hvp. }
    rewrite H1. unfold onUninstall, VirtualProgram_get.
    cbn [TerrainEngineNode.getStateSet TerrainEngineNode.storeStateSet
         TerrainEngineNode._stateset TerrainEngineNode._name].
    unfold ss2. rewrite removeUniform_pair_twice. fold ss2.
    by rewrite Hvp.
Qed.

(** X7: when a second effect is installed on the engine after a first one,
    the state set holds the second effect's uniforms; [onUninstall] of the
    first effect then leaves these two entries, since it erases an entry only
    when it holds its own uniform object, but it takes the shader function
    "oe_morph_vertex" away, which is removed by name. *)
Theorem first_uninstall_takes_shader e1 e2 h node :
  uniforms_in_sync e1 h → uniforms_in_sync e2 h →
  _delayUniform e1 ≠ _delayUniform e2 →
  _durationUniform e1 ≠ _durationUniform e2 →
  ∃ stateset vp,
    onUninstall e1 h (onInstall e2 h (onInstall e1 h (Some node)))
      = Some (TerrainEngineNode.mk (TerrainEngineNode._name node) (Some stateset)) ∧
    StateSet._uniformList stateset !! "oe_morph_delay" = Some (_delayUniform e2, 0%N) ∧
    StateSet._uniformList stateset !! "oe_morph_duration"
      = Some (_durationUniform e2, 0%N) ∧
    StateSet._virtualProgram stateset = Some vp ∧
    VirtualProgram._shaderMap vp !! "oe_morph_vertex" = None ∧
    no_function "oe_morph_vertex" vp.
Proof.
  intros Hs1 Hs2 Hd Hu.
  destruct (onInstall_installs_aux e1 h node Hs1) as (ss1 & vp1 & Hi1 & _).
  rewrite Hi1.
  destruct (onInstall_installs_aux e2 h
              (TerrainEngineNode.mk (TerrainEngineNode._name node) (Some ss1)) Hs2)
    as (ss2 & vp2 & Hi2 & Hvp2 & Hul2 & _).
  rewrite Hi2. cbn [TerrainEngineNode._name].
  set (ssr := StateSet.removeUniform h (_durationUniform e1)
                (StateSet.removeUniform h (_delayUniform e1) ss2)).
  assert (Hvpr : StateSet._virtualProgram ssr = Some vp2).
  { unfold ssr. by rewrite !(proj1 (removeUniform_fields _ _ _)). }
  assert (Hl1 : StateSet._uniformList ss2 !! "oe_morph_delay"
                = Some (_delayUniform e2, 0%N)).
  { rewrite Hul2, lookup_insert_ne by done. apply lookup_insert_eq. }
  assert (Hl2 : StateSet._uniformList ss2 !! "oe_morph_duration"
                = Some (_durationUniform e2, 0%N)).
  { rewrite Hul2. apply lookup_insert_eq. }
  exists (StateSet.storeVirtualProgram ssr
            (VirtualProgram.removeShader "oe_morph_vertex" vp2)),
         (VirtualProgram.removeShader "oe_morph_vertex" vp2).
  split_and!.
  - unfold onUninstall, VirtualProgram_get.
    cbn [TerrainEngineNode.getStateSet TerrainEngineNode._stateset].
    fold ssr. by rewrite Hvpr.
  - cbn [StateSet.storeVirtualProgram StateSet._uniformList]. unfold ssr.
    rewrite !removeUniform_lookup, Hl1.
    rewrite decide_False by (intros [E _]; by apply Hd).
    rewrite decide_False by (intros [_ E]; destruct Hs1 as [_ H]; rewrite H in E;
                             cbn in E; congruence).
    done.
  - cbn [StateSet.storeVirtualProgram StateSet._uniformList]. unfold ssr.
    rewrite !removeUniform_lookup, Hl2.
    rewrite decide_False by (intros [_ E]; destruct Hs1 as [H _]; rewrite H in E;
                             cbn in E; congruence).
    rewrite decide_False by (intros [E _]; by apply Hu).
    done.
  - reflexivity.
  - apply removeShader_gone.
  - apply removeShader_gone.
Qed.

Lemma first_uninstall_takes_shader_witness :
  uniforms_in_sync fresh_effect both_store ∧
  uniforms_in_sync second_effect both_store ∧
  _delayUniform fresh_effect ≠ _delayUniform second_effect ∧
  _durationUniform fresh_effect ≠ _durationUniform second_effect ∧
  ∃ stateset,
    onUninstall fresh_effect both_store
      (onInstall second_effect both_store
         (onInstall fresh_effect both_store (Some bare_engine)))
      = Some (TerrainEngineNode.mk "engine" (Some stateset)) ∧
    seen_value both_store stateset "oe_morph_duration" = Some f_0_25.
Proof.
  assert (H1 : uniforms_in_sync fresh_effect both_store).
  { split; vm_compute; reflexivity. }
  assert (H2 : uniforms_in_sync second_effect both_store).
  { split; vm_compute; reflexivity. }
  assert (H3 : _delayUniform fresh_effect ≠ _delayUniform second_effect).
  { vm_compute. discriminate. }
  assert (H4 : _durationUniform fresh_effect ≠ _durationUniform second_effect).
  { vm_compute. discriminate. }
  split_and!; try done.
  destruct (first_uninstall_takes_shader fresh_effect second_effect both_store
              bare_engine H1 H2 H3 H4) as (stateset & vp & Hr & _ & Hu & _).
  exists stateset. split; [exact Hr |].
  unfold seen_value. rewrite Hu. cbn [mbind option_bind fst].
  destruct H2 as [_ ->]. reflexivity.
Defined.

End Repeats.

(** ** The stored values as shader uniforms *)

Section Reals.
Import osg GLSL ElevationMorph.
Local Open Scope R_scope.
Implicit Types (s : State) (c : Call) (cs : list Call).

Lemma finite_positive m e : 0 < IZR (Zpos m) * powerRZ 2 e.
Proof.
  apply Rmult_lt_0_compat.
  - by apply IZR_lt.
  - apply powerRZ_lt. lra.
Qed.

Lemma clampAbove_real v x : float_to_R (clampAbove v f_0_0) = Some x → 0 <= x.
Proof.
  destruct v as [sg | sg | | sg m e]; try destruct sg; cbn; try discriminate;
    intros [= <-]; try lra.
  left. apply finite_positive.
Qed.

Example default_duration_real : float_to_R f_0_25 = Some (1 / 4).
Proof.
  cbn. f_equal. unfold powerRZ. simpl pow. lra.
Qed.

Lemma call_real c s :
  (∀ x, float_to_R (_delay (self s)) = Some x → 0 <= x) ∧
  (∀ x, float_to_R (_duration (self s)) = Some x → 0 <= x) →
  (∀ x, float_to_R (_delay (self (call c s))) = Some x → 0 <= x) ∧
  (∀ x, float_to_R (_duration (self (call c s))) = Some x → 0 <= x).
Proof.
  intros [H1 H2].
  destruct c; cbn; split; first [exact H1 | exact H2 | intros x; apply clampAbove_real].
Qed.

Lemma run_real cs s :
  (∀ x, float_to_R (_delay (self s)) = Some x → 0 <= x) ∧
  (∀ x, float_to_R (_duration (self s)) = Some x → 0 <= x) →
  (∀ x, float_to_R (_delay (self (run cs s))) = Some x → 0 <= x) ∧
  (∀ x, float_to_R (_duration (self (run cs s))) = Some x → 0 <= x).
Proof.
  revert s. induction cs as [| c cs IH]; intros s Hs; [exact Hs |].
  rewrite run_cons. apply IH, call_real, Hs.
Qed.

(** X8: whatever arguments the setters were given, shader uniforms that
    carry the values of the effect's two uniform objects have a delay and a
    duration that are not negative, so the morph of a tile never starts
    before the tile's birth time; and unless the duration is exactly zero the
    time term has a value, which lies in [0, 1]. *)
Theorem shader_reads_clamped_values h node cs u :
  let s := run cs (construct h node) in
  reads (uniforms s) (self s) u →
  0 <= oe_morph_delay u ∧
  0 <= oe_morph_duration u ∧
  elapsed u <= osg_FrameTime u - oe_tile_birthtime u ∧
  (oe_morph_duration u ≠ 0 → ∃ rt, r_time u = Some rt ∧ 0 <= rt <= 1).
Proof.
  cbn zeta. intros [Rd Ru].
  pose proof (run_in_sync cs _ (construct_in_sync h node)) as [Sd Su].
  rewrite Sd in Rd. rewrite Su in Ru. cbn [mbind option_bind getValue] in Rd, Ru.
  assert (H0 : (∀ x, float_to_R (_delay (self (construct h node))) = Some x → 0 <= x) ∧
               (∀ x, float_to_R (_duration (self (construct h node))) = Some x → 0 <= x)).
  { assert (Ed : _delay (self (construct h node)) = f_0_0) by reflexivity.
    assert (Eu : _duration (self (construct h node)) = f_0_25) by reflexivity.
    rewrite Ed, Eu. split; intros x Hx.
    - injection Hx as <-. lra.
    - rewrite default_duration_real in Hx. injection Hx as <-. lra. }
  destruct (run_real cs _ H0) as [Hd Hu].
  pose proof (Hd _ Rd) as Hdelay. pose proof (Hu _ Ru) as Hdur.
  split_and!; try done.
  - unfold elapsed. lra.
  - intros Hne. assert (Hpos : 0 < oe_morph_duration u) by lra.
    exists (1 - Rmin (Rmax (elapsed u) 0) (oe_morph_duration u) / oe_morph_duration u).
    pose proof (r_time_defined u Hpos) as Ht.
    split; [exact Ht |]. by apply (r_time_bounds u).
Qed.

Lemma shader_reads_clamped_values_witness :
  reads (uniforms (run [SetDelay f_neg_1_0] (construct ∅ bare_engine)))
        (self (run [SetDelay f_neg_1_0] (construct ∅ bare_engine))) tile_uniforms ∧
  oe_morph_duration tile_uniforms ≠ 0 ∧
  ∃ rt, r_time tile_uniforms = Some rt ∧ 0 <= rt <= 1.
Proof.
  assert (Hr : reads (uniforms (run [SetDelay f_neg_1_0] (construct ∅ bare_engine)))
                 (self (run [SetDelay f_neg_1_0] (construct ∅ bare_engine)))
                 tile_uniforms).
  { split.
    - vm_compute. reflexivity.
    - transitivity (float_to_R f_0_25); [vm_compute; reflexivity |].
      rewrite default_duration_real. cbn. f_equal. }
  assert (Hne : oe_morph_duration tile_uniforms ≠ 0) by (cbn; lra).
  split; [exact Hr |]. split; [exact Hne |].
  destruct (shader_reads_clamped_values ∅ bare_engine [SetDelay f_neg_1_0]
              tile_uniforms Hr) as (_ & _ & _ & Ht).
  exact (Ht Hne).
Defined.

End Reals.

(** ** The course of the morph *)

Section Course.
Import GLSL ElevationMorph.
Local Open Scope R_scope.
Implicit Types (u : Uniforms) (attr : Attributes) (mv : mat4) (V : vec4).

Lemma r_time_before u :
  0 < oe_morph_duration u → elapsed u <= 0 → r_time u = Some 1.
Proof.
  intros Hdur He. rewrite (r_time_defined u Hdur). f_equal.
  rewrite clamped_low by lra. lra.
Qed.

Lemma r_time_after u :
  0 < oe_morph_duration u → oe_morph_duration u <= elapsed u → r_time u = Some 0.
Proof.
  intros Hdur He. rewrite (r_time_defined u Hdur). f_equal.
  rewrite clamped_high by lra. unfold Rdiv. rewrite Rinv_r by lra. lra.
Qed.

(** X9: for a positive duration the time term is 1 until the delay after
    the tile's birth has passed, falls linearly with the time elapsed since,
    and is 0 once the duration has passed. *)
Theorem r_time_ramp u :
  0 < oe_morph_duration u →
  (elapsed u <= 0 → r_time u = Some 1) ∧
  (0 <= elapsed u <= oe_morph_duration u →
   r_time u = Some (1 - elapsed u / oe_morph_duration u)) ∧
  (oe_morph_duration u <= elapsed u → r_time u = Some 0).
Proof.
  intros Hdur. split_and!; intros He.
  - by apply r_time_before.
  - rewrite (r_time_defined u Hdur). f_equal. by rewrite clamped_inside.
  - by apply r_time_after.
Qed.

Lemma r_time_ramp_witness :
  0 < oe_morph_duration tile_uniforms ∧
  oe_morph_duration tile_uniforms <= elapsed tile_uniforms ∧
  r_time tile_uniforms = Some 0.
Proof.
  assert (H1 : 0 < oe_morph_duration tile_uniforms) by (cbn; lra).
  assert (H2 : oe_morph_duration tile_uniforms <= elapsed tile_uniforms).
  { unfold elapsed. cbn. lra. }
  split; [exact H1 |]. split; [exact H2 |].
  destruct (r_time_ramp tile_uniforms H1) as (_ & _ & H). exact (H H2).
Defined.

(** X10: for a positive range factor and a positive radius the distance
    term is 0 up to [d/radius = near], rises linearly up to [d/radius = far]
    and is 1 beyond; for a negative radius it is 0 at every distance. *)
Theorem r_dist_ramp u mv V d1 :
  0 < far u → d u mv V = Some d1 →
  (0 < radius u →
   (d1 / radius u <= near u → r_dist u mv V = Some 0) ∧
   (near u <= d1 / radius u <= far u →
    r_dist u mv V = Some ((d1 / radius u - near u) / (far u - near u))) ∧
   (far u <= d1 / radius u → r_dist u mv V = Some 1)) ∧
  (radius u < 0 → r_dist u mv V = Some 0).
Proof.
  intros Hfar Hd.
  assert (Hnf : near u <= far u) by (unfold near; lra).
  assert (Hpos : far u - near u ≠ 0) by (rewrite near_far; lra).
  split.
  - intros Hrad. rewrite (r_dist_defined u mv V d1 Hd Hfar) by lra.
    split_and!; intros Hq; f_equal.
    + rewrite clamped_low by lra. lra.
    + by rewrite clamped_inside.
    + rewrite clamped_high by lra. unfold Rdiv. by rewrite Rinv_r.
  - intros Hrad. rewrite (r_dist_defined u mv V d1 Hd Hfar) by lra. f_equal.
    apply d_inv in Hd as [_ Hb].
    assert (Hq : d1 / radius u <= near u).
    { assert (d1 / radius u <= 0); [| unfold near; lra].
      unfold Rdiv. assert (/ radius u < 0) by by apply Rinv_lt_0_compat. nra. }
    rewrite clamped_low by lra. lra.
Qed.

Lemma r_dist_ramp_witness :
  0 < far tile_uniforms ∧
  d tile_uniforms identity (ahead 6.5) = Some 5.5 ∧
  0 < radius tile_uniforms ∧
  near tile_uniforms <= 5.5 / radius tile_uniforms <= far tile_uniforms ∧
  r_dist tile_uniforms identity (ahead 6.5)
  = Some ((5.5 / radius tile_uniforms - near tile_uniforms)
          / (far tile_uniforms - near tile_uniforms)).
Proof.
  assert (H1 : 0 < far tile_uniforms) by (unfold far; cbn; lra).
  assert (H2 : d tile_uniforms identity (ahead 6.5) = Some 5.5).
  { rewrite d_ahead by lra. f_equal. unfold radius. cbn. lra. }
  assert (H3 : 0 < radius tile_uniforms) by (unfold radius; cbn; lra).
  assert (H4 : near tile_uniforms <= 5.5 / radius tile_uniforms <= far tile_uniforms).
  { unfold near, far, radius. cbn. lra. }
  split; [exact H1 |]. split; [exact H2 |]. split; [exact H3 |]. split; [exact H4 |].
  destruct (r_dist_ramp tile_uniforms identity (ahead 6.5) 5.5 H1 H2) as [Hp _].
  destruct (Hp H3) as (_ & Hm & _). exact (Hm H4).
Defined.

Lemma oe_morph_vertex_at u attr mv V rr :
  r u mv V = Some rr → w V ≠ 0 →
  oe_morph_vertex u attr mv V
  = Some (mkvec4
      (x V + x3 (upVector attr) * (rr * (elevOld attr - elev attr)) / w V)
      (y V + y3 (upVector attr) * (rr * (elevOld attr - elev attr)) / w V)
      (z V + z3 (upVector attr) * (rr * (elevOld attr - elev attr)) / w V)
      (w V)).
Proof.
  intros Hr Hw. unfold oe_morph_vertex. rewrite Hr. cbn.
  rewrite vec3_div_Some by done. cbn. f_equal.
  unfold vec4_add. cbn. f_equal; field; done.
Qed.

Lemma oe_morph_vertex_inv u attr mv V V' :
  oe_morph_vertex u attr mv V = Some V' →
  ∃ rr, r u mv V = Some rr ∧ w V ≠ 0.
Proof.
  unfold oe_morph_vertex. destruct (r u mv V) as [rr |]; [| discriminate]. cbn.
  destruct (vec3_div _ _) as [o |] eqn:Ho; [| discriminate]. intros _.
  exists rr. split; [reflexivity |]. by eapply vec3_div_inv.
Qed.

Lemma r_has_value u mv V :
  0 < far u → radius u ≠ 0 → w (VertexVIEW mv V) ≠ 0 → 0 < oe_morph_duration u →
  ∃ rr, r u mv V = Some rr ∧ 0 <= rr <= 1.
Proof.
  intros Hfar Hrad Hw Hdur.
  destruct (d_defined u mv V Hw) as [d1 Hd].
  pose proof (r_dist_defined u mv V d1 Hd Hfar Hrad) as Hrd.
  pose proof (r_time_defined u Hdur) as Hrt.
  pose proof (r_dist_bounds u mv V _ Hrd) as Hb1.
  pose proof (r_time_bounds u _ Hrt) as Hb2.
  eexists. split; [by apply r_defined |].
  set (rd := _ / _) in *. set (rt := 1 - _) in *.
  unfold Rmax. destruct (Rle_dec rd rt); lra.
Qed.

(** X11: for a positive range factor and a positive duration, and a radius,
    a [VertexVIEW.w] and a [VertexMODEL.w] that are not zero, no operation
    of the shader function divides by zero or clamps over an empty range:
    the morph ratio has a value in [0, 1] and the function returns
    [VertexMODEL] displaced by [upVector * r * (elevOld - elev) / w]. *)
Theorem oe_morph_vertex_defined u attr mv V :
  0 < far u → radius u ≠ 0 → w (VertexVIEW mv V) ≠ 0 →
  0 < oe_morph_duration u → w V ≠ 0 →
  ∃ rr, r u mv V = Some rr ∧ 0 <= rr <= 1 ∧
    oe_morph_vertex u attr mv V
    = Some (mkvec4
        (x V + x3 (upVector attr) * (rr * (elevOld attr - elev attr)) / w V)
        (y V + y3 (upVector attr) * (rr * (elevOld attr - elev attr)) / w V)
        (z V + z3 (upVector attr) * (rr * (elevOld attr - elev attr)) / w V)
        (w V)).
Proof.
  intros Hfar Hrad Hwv Hdur Hw.
  destruct (r_has_value u mv V Hfar Hrad Hwv Hdur) as (rr & Hr & Hb).
  exists rr. split; [exact Hr |]. split; [exact Hb |].
  by apply oe_morph_vertex_at.
Qed.

Lemma oe_morph_vertex_defined_witness :
  0 < far tile_uniforms ∧
  radius tile_uniforms ≠ 0 ∧
  w (VertexVIEW identity (ahead 6.5)) ≠ 0 ∧
  0 < oe_morph_duration tile_uniforms ∧
  w (ahead 6.5) ≠ 0 ∧
  ∃ V', oe_morph_vertex tile_uniforms tile_attributes identity (ahead 6.5) = Some V'.
Proof.
  assert (H1 : 0 < far tile_uniforms) by (unfold far; cbn; lra).
  assert (H2 : radius tile_uniforms ≠ 0) by (unfold radius; cbn; lra).
  assert (H3 : w (VertexVIEW identity (ahead 6.5)) ≠ 0).
  { unfold VertexVIEW. rewrite mat4_mul_identity. cbn. lra. }
  assert (H4 : 0 < oe_morph_duration tile_uniforms) by (cbn; lra).
  assert (H5 : w (ahead 6.5) ≠ 0) by (cbn; lra).
  repeat (split; [assumption |]).
  destruct (oe_morph_vertex_defined tile_uniforms tile_attributes identity
              (ahead 6.5) H1 H2 H3 H4 H5) as (rr & _ & _ & HV).
  eauto.
Defined.

(** X12: the morphed vertex keeps its [w], and its [xyz] is moved by a
    multiple of [upVector]: the shader moves a vertex along its up vector
    only. *)
Theorem morph_moves_along_up u attr mv V V' :
  oe_morph_vertex u attr mv V = Some V' →
  w V' = w V ∧
  ∃ k, x V' = x V + k * x3 (upVector attr) ∧
       y V' = y V + k * y3 (upVector attr) ∧
       z V' = z V + k * z3 (upVector attr).
Proof.
  intros HV. pose proof HV as HV'.
  apply oe_morph_vertex_inv in HV' as (rr & Hr & Hw).
  rewrite (oe_morph_vertex_at u attr mv V rr Hr Hw) in HV. injection HV as <-.
  split; [reflexivity |].
  exists (rr * (elevOld attr - elev attr) / w V). cbn. split_and!; field; done.
Qed.

Lemma morph_moves_along_up_witness :
  oe_morph_vertex tile_uniforms tile_attributes identity (ahead 10)
  = Some (mkvec4 0 0 (- 10 + 1 * (1 * (3 - 5)) / 1) 1) ∧
  w (mkvec4 0 0 (- 10 + 1 * (1 * (3 - 5)) / 1) 1) = w (ahead 10).
Proof.
  assert (H : oe_morph_vertex tile_uniforms tile_attributes identity (ahead 10)
              = Some (mkvec4 0 0 (- 10 + 1 * (1 * (3 - 5)) / 1) 1)).
  { rewrite (oe_morph_vertex_at _ _ _ _ 1 r_tile_far) by (cbn; lra).
    cbn. f_equal. f_equal; lra. }
  split; [exact H |].
  exact (proj1 (morph_moves_along_up _ _ _ _ _ H)).
Defined.

(** X13: a vertex whose old and new elevations are equal is returned as it
    is, whatever the morph ratio. *)
Theorem level_vertex_unchanged u attr mv V V' :
  elev attr = elevOld attr →
  oe_morph_vertex u attr mv V = Some V' →
  V' = V.
Proof.
  intros He HV. pose proof HV as HV'.
  apply oe_morph_vertex_inv in HV' as (rr & Hr & Hw).
  rewrite (oe_morph_vertex_at u attr mv V rr Hr Hw) in HV. injection HV as <-.
  rewrite He. destruct V as [vx vy vz vw]. cbn in *. f_equal; field; done.
Qed.

Lemma level_vertex_unchanged_witness :
  elev level_attributes = elevOld level_attributes ∧
  oe_morph_vertex tile_uniforms level_attributes identity (ahead 10)
  = Some (ahead 10).
Proof.
  assert (He : elev level_attributes = elevOld level_attributes) by reflexivity.
  split; [exact He |].
  assert (Hw : w (ahead 10) ≠ 0) by (cbn; lra).
  pose proof (oe_morph_vertex_at tile_uniforms level_attributes identity
                (ahead 10) 1 r_tile_far Hw) as HV.
  rewrite HV. f_equal.
  exact (level_vertex_unchanged _ _ _ _ _ He HV).
Defined.

(** X14: until the delay after a tile's birth has passed, the morph ratio
    is 1 at every distance at which the distance term has a value: the
    vertex is displaced by [upVector * (elevOld - elev) / w], that is, it is
    drawn at its old elevation however near the camera is. *)
Theorem old_elevation_during_delay u attr mv V rd :
  0 < oe_morph_duration u → elapsed u <= 0 →
  r_dist u mv V = Some rd →
  r u mv V = Some 1 ∧
  (w V ≠ 0 →
   oe_morph_vertex u attr mv V
   = Some (mkvec4
       (x V + x3 (upVector attr) * (elevOld attr - elev attr) / w V)
       (y V + y3 (upVector attr) * (elevOld attr - elev attr) / w V)
       (z V + z3 (upVector attr) * (elevOld attr - elev attr) / w V)
       (w V))).
Proof.
  intros Hdur He Hd.
  pose proof (r_time_before u Hdur He) as Ht.
  pose proof (r_dist_bounds u mv V rd Hd) as Hb.
  assert (Hr : r u mv V = Some 1).
  { rewrite (r_defined u mv V rd 1 Hd Ht). f_equal.
    unfold Rmax. destruct (Rle_dec rd 1); lra. }
  split; [exact Hr |]. intros Hw.
  rewrite (oe_morph_vertex_at u attr mv V 1 Hr Hw). f_equal. f_equal; lra.
Qed.

Lemma old_elevation_during_delay_witness :
  0 < oe_morph_duration newborn_uniforms ∧
  elapsed newborn_uniforms <= 0 ∧
  r_dist newborn_uniforms identity (ahead 3) = Some 0 ∧
  r newborn_uniforms identity (ahead 3) = Some 1.
Proof.
  assert (H1 : 0 < oe_morph_duration newborn_uniforms) by (cbn; lra).
  assert (H2 : elapsed newborn_uniforms <= 0) by (unfold elapsed; cbn; lra).
  assert (H3 : r_dist newborn_uniforms identity (ahead 3) = Some 0).
  { change (r_dist newborn_uniforms identity (ahead 3))
      with (r_dist tile_uniforms identity (ahead 3)).
    rewrite r_dist_tile by lra. f_equal. rewrite clamped_low by lra. lra. }
  split; [exact H1 |]. split; [exact H2 |]. split; [exact H3 |].
  exact (proj1 (old_elevation_during_delay newborn_uniforms tile_attributes
                  identity (ahead 3) 0 H1 H2 H3)).
Defined.

(** X15: once the delay and the duration have passed, the morph ratio is
    the distance term alone; a vertex whose distance term is 0 is then
    returned as it is, at its new elevation. *)
Theorem settled_ratio_is_distance u attr mv V :
  0 < oe_morph_duration u → oe_morph_duration u <= elapsed u →
  r u mv V = r_dist u mv V ∧
  (r_dist u mv V = Some 0 → w V ≠ 0 → oe_morph_vertex u attr mv V = Some V).
Proof.
  intros Hdur He.
  pose proof (r_time_after u Hdur He) as Ht.
  assert (Hr : r u mv V = r_dist u mv V).
  { destruct (r_dist u mv V) as [rd |] eqn:Hd.
    - pose proof (r_dist_bounds u mv V rd Hd) as Hb.
      rewrite (r_defined u mv V rd 0 Hd Ht). f_equal.
      unfold Rmax. destruct (Rle_dec rd 0); lra.
    - unfold r. by rewrite Hd. }
  split; [exact Hr |]. intros H0 Hw. rewrite H0 in Hr.
  rewrite (oe_morph_vertex_at u attr mv V 0 Hr Hw).
  destruct V as [vx vy vz vw]. cbn in *. f_equal. f_equal; field; done.
Qed.

Lemma settled_ratio_is_distance_witness :
  0 < oe_morph_duration tile_uniforms ∧
  oe_morph_duration tile_uniforms <= elapsed tile_uniforms ∧
  r tile_uniforms identity (ahead 6.5) = r_dist tile_uniforms identity (ahead 6.5).
Proof.
  assert (H1 : 0 < oe_morph_duration tile_uniforms) by (cbn; lra).
  assert (H2 : oe_morph_duration tile_uniforms <= elapsed tile_uniforms).
  { unfold elapsed. cbn. lra. }
  split; [exact H1 |]. split; [exact H2 |].
  exact (proj1 (settled_ratio_is_distance tile_uniforms tile_attributes
                  identity (ahead 6.5) H1 H2)).
Defined.

End Course.
